(** * Universal PDF extractor: the schema-driven, page-wise pipeline

    A shallow embedding of [universal_extractor_backend.py]:
    [build_pydantic_model], [extract_text_from_pdf], [run_llm_extraction]
    and [process_extraction], followed by the properties of the pipeline. *)

From Stdlib Require Import ZArith List String Ascii Lia.
From stdpp Require Import base option list gmap strings pretty.

Set Warnings "-register-all".

Local Open Scope Z_scope.

(** ** Python values

    The values that travel through the backend: field descriptors are
    [Dict[str, Any]], extracted records and the result envelope are
    dictionaries handed to [json.dumps].  A dictionary that is serialised
    keeps its insertion order, so it is an association list.  A [string]
    stands for a Python [str] whose code points are below 256, one
    character per code point.  Floating-point values are not part of the
    embedding. *)

Inductive PyVal : Type :=
| PyNone
| PyBool (b : bool)
| PyInt (z : Z)
| PyStr (s : string)
| PyList (l : list PyVal)
| PyDict (d : list (string * PyVal)).

(** [bool(v)], the truth value used by [if v] and [x if v else y]. *)
Definition py_truthy (v : PyVal) : bool :=
  match v with
  | PyNone => false
  | PyBool b => b
  | PyInt z => negb (z =? 0)
  | PyStr s => negb (String.eqb s EmptyString)
  | PyList l => match l with [] => false | _ :: _ => true end
  | PyDict d => match d with [] => false | _ :: _ => true end
  end.

(** Lists and dictionaries have no hash; every other value has one. *)
Definition py_hashable (v : PyVal) : bool :=
  match v with
  | PyList _ | PyDict _ => false
  | _ => true
  end.

(** [a == b] on hashable values, as a dictionary compares its keys:
    [True == 1] and [False == 0]. *)
Definition py_key_eqb (a b : PyVal) : bool :=
  match a, b with
  | PyNone, PyNone => true
  | PyBool x, PyBool y => Bool.eqb x y
  | PyBool x, PyInt y => (if x then 1 else 0) =? y
  | PyInt x, PyBool y => x =? (if y then 1 else 0)
  | PyInt x, PyInt y => x =? y
  | PyStr x, PyStr y => String.eqb x y
  | _, _ => false
  end.

(** [d.get(key)] and [d[key]] on an insertion-ordered dictionary with
    string keys. *)
Fixpoint dict_get (key : string) (d : list (string * PyVal)) : option PyVal :=
  match d with
  | [] => None
  | (k, v) :: d' => if String.eqb k key then Some v else dict_get key d'
  end.

(** ** Exceptions

    Every exception here is an instance of Python's [Exception]; [exc_str]
    is what [str(e)] returns. *)

Inductive ExcClass : Type :=
| KeyError
| TypeError
| ValueError
| IndexError
| FileNotFoundError
| PdfReadError
| LibraryError.

Record PyExc : Type := mkExc { exc_class : ExcClass; exc_str : string }.

Abbreviation Res A := (PyExc + A)%type.

Definition ok {A} (a : A) : Res A := inr a.
Definition raise {A} (c : ExcClass) (msg : string) : Res A := inl (mkExc c msg).

Definition res_bind {A B} (r : Res A) (k : A -> Res B) : Res B :=
  match r with
  | inl e => inl e
  | inr a => k a
  end.

Notation "x <-? r ; k" := (res_bind r (fun x => k))
  (at level 100, r at next level, k at level 200, right associativity,
   format "'[v' x  <-?  r ; '/' k ']'").

(** [str(KeyError(key))] is the [repr] of the key. *)
Definition key_error {A} (key : string) : Res A :=
  raise KeyError ("'" +:+ key +:+ "'").

(** ** 1. build_pydantic_model *)

Inductive DType : Type := TStr | TInt | TFloat | TBool.

Definition type_map : gmap string DType :=
  <["str" := TStr]> (<["int" := TInt]> (<["float" := TFloat]> (<["bool" := TBool]> ∅))).

(** [type_map.get(v, dflt)]: hashing the key comes first, so a list or a
    dictionary raises; a hashable key that is no string equals no key. *)
Definition type_map_get (v : PyVal) (dflt : DType) : Res DType :=
  match v with
  | PyStr s => ok (default dflt (type_map !! s))
  | PyList _ => raise TypeError "unhashable type: 'list'"
  | PyDict _ => raise TypeError "unhashable type: 'dict'"
  | _ => ok dflt
  end.

(** [dtype] against [Optional[dtype]]. *)
Inductive FinalType : Type :=
| Plain (t : DType)
| Optional (t : DType).

(** The first argument of [Field]: [...] marks a field without default. *)
Inductive DefaultValue : Type :=
| Ellipsis
| DefaultNone.

Record FieldInfo : Type := Field {
  fi_default : DefaultValue;
  fi_description : option PyVal;
  fi_examples : option PyVal
}.

Definition Annotation : Type := FinalType * FieldInfo.

(** [annotations[key] = a] on the insertion-ordered dictionary: an equal
    key keeps its place and its key object and takes the new value. *)
Fixpoint annotations_set (key : PyVal) (a : Annotation)
    (annotations : list (PyVal * Annotation)) : list (PyVal * Annotation) :=
  match annotations with
  | [] => [(key, a)]
  | (k, a') :: rest =>
      if py_key_eqb k key then (k, a) :: rest
      else (k, a') :: annotations_set key a rest
  end.

(** [f.get(key)] followed by [f[key]] when the value is truthy. *)
Definition field_arg (f : gmap string PyVal) (key : string) : option PyVal :=
  match f !! key with
  | Some v => if py_truthy v then Some v else None
  | None => None
  end.

Definition resolve_dtype (f : gmap string PyVal) : Res DType :=
  type_map_get (default (PyStr "str") (f !! "type")) TStr.

Definition field_required (f : gmap string PyVal) : bool :=
  py_truthy (default (PyBool false) (f !! "required")).

(** One turn of the loop over [fields]. *)
Definition build_field (annotations : list (PyVal * Annotation))
    (f : gmap string PyVal) : Res (list (PyVal * Annotation)) :=
  dtype <-? resolve_dtype f;
  let required := field_required f in
  let default_value := if required then Ellipsis else DefaultNone in
  let final_type := if required then Plain dtype else Optional dtype in
  let info := Field default_value (field_arg f "description") (field_arg f "examples") in
  name <-? match f !! "name" with
           | Some n => ok n
           | None => key_error "name"
           end;
  match name with
  | PyList _ => raise TypeError "unhashable type: 'list'"
  | PyDict _ => raise TypeError "unhashable type: 'dict'"
  | _ => ok (annotations_set name (final_type, info) annotations)
  end.

Fixpoint build_fields (fields : list (gmap string PyVal))
    (annotations : list (PyVal * Annotation)) : Res (list (PyVal * Annotation)) :=
  match fields with
  | [] => ok annotations
  | f :: rest =>
      annotations' <-? build_field annotations f;
      build_fields rest annotations'
  end.

(** The record type: its name and its members in definition order. *)
Record DynamicModelT : Type := mkModel {
  model_name : string;
  model_fields : list (string * Annotation)
}.

(** [class BatchWrapper(BaseModel): items: List[DynamicModel]]. *)
Record BatchWrapperT : Type := mkBatchWrapper { items_type : DynamicModelT }.

(** [**annotations] accepts string keys only. *)
Fixpoint keyword_args (annotations : list (PyVal * Annotation))
    : Res (list (string * Annotation)) :=
  match annotations with
  | [] => ok []
  | (PyStr n, a) :: rest =>
      rest' <-? keyword_args rest;
      ok ((n, a) :: rest')
  | _ :: _ => raise TypeError "keywords must be strings"
  end.

(** pydantic is outside the repository, and which keyword names its
    [create_model] takes as field names depends on the installed version
    (names that begin with an underscore, its own keywords such as
    [__base__] and [__config__], names that shadow an attribute of
    [BaseModel]).  The library is a parameter of the pipeline:
    [accepts_field_name] tells the names it takes as fields,
    [create_model_other] is what [create_model] does when some keyword is
    not among them (it may raise, or build a type without that member),
    and [schema] and [schema_json] are [BatchWrapper.schema()] and
    [BatchWrapper.schema_json(indent)], functions of the model class
    alone. *)
Record Pydantic : Type := mkPydantic {
  accepts_field_name : string -> bool;
  create_model_other : string -> list (string * Annotation) -> Res DynamicModelT;
  schema : BatchWrapperT -> PyVal;
  schema_json : BatchWrapperT -> nat -> string
}.

(** [create_model(model_name, **annotations)]: when pydantic takes every
    keyword as a field name, the new type has exactly the keywords as
    members, in their order. *)
Definition create_model (SP : Pydantic) (name : string)
    (annotations : list (PyVal * Annotation)) : Res DynamicModelT :=
  members <-? keyword_args annotations;
  if forallb (accepts_field_name SP) (map fst members)
  then ok (mkModel name members)
  else create_model_other SP name members.

Definition build_pydantic_model (SP : Pydantic) (fields : list (gmap string PyVal))
    (name : string) : Res (DynamicModelT * BatchWrapperT) :=
  annotations <-? build_fields fields [];
  DynamicModel <-? create_model SP name annotations;
  ok (DynamicModel, mkBatchWrapper DynamicModel).



Definition declared_dtype (a : Annotation) : DType :=
  match fst a with Optional t => t | Plain t => t end.

Fixpoint member_get (name : string) (members : list (string * Annotation))
    : option Annotation :=
  match members with
  | [] => None
  | (k, a) :: rest => if String.eqb k name then Some a else member_get name rest
  end.

(** ** 2. extract_text_from_pdf *)

(** What [page.extract_text(extraction_mode="layout")] does on a page: it
    returns a text (or nothing), or the installed pypdf does not know the
    keyword and raises [TypeError]. *)
Inductive LayoutResult : Type :=
| LayoutText (t : option string)
| LayoutTypeError.

Record Page : Type := mkPage {
  layout_text : LayoutResult;
  plain_text : option string
}.

Record Reader : Type := mkReader { pages : list Page }.

(** What a path holds on disc. *)
Inductive FileContent : Type :=
| PdfFile (r : Reader)
| OtherFile.

Definition PdfReader (fs : gmap string FileContent) (pdf_path : string) : Res Reader :=
  match fs !! pdf_path with
  | None => raise FileNotFoundError ("[Errno 2] No such file or directory: '" +:+ pdf_path +:+ "'")
  | Some OtherFile => raise PdfReadError "EOF marker not found"
  | Some (PdfFile r) => ok r
  end.

(** The second argument of the pipeline: the frontend's select box passes
    a number or the string [ALL]. *)
Inductive NumPages : Type :=
| ALL
| Count (n : Z).

(** [x or s] with [s] the empty string. *)
Definition or_empty (x : option string) : string :=
  match x with
  | Some s => s
  | None => EmptyString
  end.

(** The body of the loop up to [append]: layout mode first, plain mode
    when layout mode raises [TypeError]. *)
Definition page_extract_text (page : Page) : string :=
  let page_text :=
    match layout_text page with
    | LayoutText t => t
    | LayoutTypeError => Some (or_empty (plain_text page))
    end in
  or_empty page_text.

(** [range(a, b)]: [b - a] consecutive integers from [a], none when
    [b <= a]. *)
Fixpoint range_from (a : Z) (n : nat) : list Z :=
  match n with
  | O => []
  | S n' => a :: range_from (a + 1) n'
  end.

Definition py_range (a b : Z) : list Z := range_from a (Z.to_nat (b - a)).

(** [l[i]] with Python's negative indices. *)
Definition py_index {A} (l : list A) (i : Z) : Res A :=
  let n := Z.of_nat (length l) in
  let j := if i <? 0 then i + n else i in
  if (j <? 0) || (n <=? j) then raise IndexError "list index out of range"
  else match l !! Z.to_nat j with
       | Some x => ok x
       | None => raise IndexError "list index out of range"
       end.

Fixpoint extract_pages (reader : Reader) (range : list Z) (page_texts : list string)
    : Res (list string) :=
  match range with
  | [] => ok page_texts
  | pg :: rest =>
      page <-? py_index (pages reader) pg;
      extract_pages reader rest (page_texts ++ [page_extract_text page])
  end.

Definition start_index (start_page : Z) : Z := Z.max 0 (start_page - 1).

Definition end_index (total_pages : Z) (num_pages : NumPages) (start_idx : Z) : Z :=
  match num_pages with
  | ALL => total_pages
  | Count n => Z.min (start_idx + n) total_pages
  end.

Definition no_text_message : string := "No text could be extracted from the PDF.".

(** The function from [total_pages = len(reader.pages)] on, once the
    document is open. *)
Definition extract_text_from_reader (reader : Reader) (num_pages : NumPages)
    (start_page : Z) : Res (list string) :=
  let total_pages := Z.of_nat (length (pages reader)) in
  let start_idx := start_index start_page in
  let end_idx := end_index total_pages num_pages start_idx in
  page_texts <-? extract_pages reader (py_range start_idx end_idx) [];
  match page_texts with
  | [] => raise ValueError no_text_message
  | _ :: _ => ok page_texts
  end.

Definition extract_text_from_pdf (fs : gmap string FileContent) (pdf_path : string)
    (num_pages : NumPages) (start_page : Z) : Res (list string) :=
  reader <-? PdfReader fs pdf_path;
  extract_text_from_reader reader num_pages start_page.

(** ** json.dumps with an indent *)

Definition quote : string := String "034"%char EmptyString.
Definition newline : string := String "010"%char EmptyString.

Definition hex_digit (n : N) : ascii :=
  default "0"%char (list_ascii_of_string "0123456789abcdef" !! N.to_nat n).

(** The four-digit escape of a code point below 256. *)
Definition u_escape (c : ascii) : string :=
  let n := N_of_ascii c in
  "\u00" +:+ String (hex_digit (n / 16)%N) (String (hex_digit (n mod 16)%N) EmptyString).

Definition escape_char (ensure_ascii : bool) (c : ascii) : string :=
  let n := N_of_ascii c in
  if (n =? 34)%N then "\" +:+ quote
  else if (n =? 92)%N then "\\"
  else if (n =? 10)%N then "\n"
  else if (n =? 13)%N then "\r"
  else if (n =? 9)%N then "\t"
  else if (n =? 8)%N then "\b"
  else if (n =? 12)%N then "\f"
  else if (n <? 32)%N then u_escape c
  else if ensure_ascii && (126 <? n)%N then u_escape c
  else String c EmptyString.

Fixpoint escape_string (ensure_ascii : bool) (s : string) : string :=
  match s with
  | EmptyString => EmptyString
  | String c s' => escape_char ensure_ascii c +:+ escape_string ensure_ascii s'
  end.

Definition json_string (ensure_ascii : bool) (s : string) : string :=
  quote +:+ escape_string ensure_ascii s +:+ quote.

Fixpoint spaces (n : nat) : string :=
  match n with
  | O => EmptyString
  | S n' => String " "%char (spaces n')
  end.

Definition newline_indent (indent level : nat) : string :=
  newline +:+ spaces (indent * level).

Fixpoint join (sep : string) (l : list string) : string :=
  match l with
  | [] => EmptyString
  | [x] => x
  | x :: rest => x +:+ sep +:+ join sep rest
  end.

Fixpoint json_encode (ensure_ascii : bool) (indent level : nat) (v : PyVal) : string :=
  match v with
  | PyNone => "null"
  | PyBool true => "true"
  | PyBool false => "false"
  | PyInt z => pretty z
  | PyStr s => json_string ensure_ascii s
  | PyList [] => "[]"
  | PyList l =>
      "[" +:+ newline_indent indent (S level)
      +:+ join ("," +:+ newline_indent indent (S level))
               (map (json_encode ensure_ascii indent (S level)) l)
      +:+ newline_indent indent level +:+ "]"
  | PyDict [] => "{}"
  | PyDict d =>
      "{" +:+ newline_indent indent (S level)
      +:+ join ("," +:+ newline_indent indent (S level))
               (map (fun kv => json_string ensure_ascii (fst kv) +:+ ": "
                               +:+ json_encode ensure_ascii indent (S level) (snd kv)) d)
      +:+ newline_indent indent level +:+ "}"
  end.

(** [json.dumps(v, indent=indent, ensure_ascii=ensure_ascii)]. *)
Definition json_dumps (v : PyVal) (indent : nat) (ensure_ascii : bool) : string :=
  json_encode ensure_ascii indent 0 v.

(** ** The language-model provider and the process state

    [langchain_openai] is outside the repository.  A provider is any
    implementation of the three calls the backend makes: building the
    client, constraining it to a schema, and one structured-output request.
    A request may read and change the provider's own state (quota, cache,
    sampling), and each of the three calls may raise. *)

Record Message : Type := mkMessage { role : string; content : string }.

(** One extracted item, as [item.dict()] shows it. *)
Definition Item : Type := list (string * PyVal).

Record Provider : Type := mkProvider {
  ProviderState : Type;
  ChatModel : Type;
  StructuredModel : Type;
  ChatOpenAI : string -> string -> Res ChatModel;
  with_structured_output : ChatModel -> BatchWrapperT -> Res StructuredModel;
  invoke : StructuredModel -> list Message -> ProviderState -> Res (list Item) * ProviderState
}.

Section Pipeline.

Context (P : Provider) (SP : Pydantic).

(** What a run can change: the lines printed so far, the provider's state,
    and the requests sent to the model, oldest first. *)
Record World : Type := mkWorld {
  stdout : list string;
  llm_state : ProviderState P;
  llm_calls : list (list Message)
}.

(** A computation that may raise and that changes the world; what was
    done before an exception stays done. *)
Definition M (A : Type) : Type := World -> Res A * World.

Definition ret {A} (a : A) : M A := fun w => (inr a, w).

Definition bind {A B} (m : M A) (k : A -> M B) : M B :=
  fun w =>
    match m w with
    | (inl e, w') => (inl e, w')
    | (inr a, w') => k a w'
    end.

Definition lift {A} (r : Res A) : M A := fun w => (r, w).

(** [try: body except Exception as e: handler(e)]. *)
Definition try_except {A} (body : M A) (handler : PyExc -> M A) : M A :=
  fun w =>
    match body w with
    | (inl e, w') => handler e w'
    | (inr a, w') => (inr a, w')
    end.

Definition print (line : string) : M unit :=
  fun w => (inr tt, mkWorld (stdout w ++ [line]) (llm_state w) (llm_calls w)).

(** [structured_llm.invoke(messages)] with [result.items] unwrapped. *)
Definition invoke_model (structured_llm : StructuredModel P) (messages : list Message)
    : M (list Item) :=
  fun w =>
    let '(r, st) := invoke P structured_llm messages (llm_state w) in
    (r, mkWorld (stdout w) st (llm_calls w ++ [messages])).

End Pipeline.

Arguments ret {P A} a.
Arguments bind {P A B} m k.
Arguments lift {P A} r.
Arguments try_except {P A} body handler.
Arguments print {P} line.
Arguments invoke_model {P} structured_llm messages.
Arguments mkWorld {P} stdout llm_state llm_calls.
Arguments stdout {P} w.
Arguments llm_state {P} w.
Arguments llm_calls {P} w.

Notation "x <-! m ; k" := (bind m (fun x => k))
  (at level 100, m at next level, k at level 200, right associativity,
   format "'[v' x  <-!  m ; '/' k ']'").

(** ** 3. run_llm_extraction *)

Definition system_prompt_text (schema_text description : string) : string :=
  let system_prompt :=
    newline
    +:+ "You are an intelligent data extraction system. Extract structured data from the given PDF text based on the schema below."
    +:+ newline +:+ newline
    +:+ "### SCHEMA ###" +:+ newline
    +:+ schema_text +:+ newline +:+ newline
    +:+ "### RULES ###" +:+ newline
    +:+ "1. Treat each record/item as a separate entity." +:+ newline
    +:+ "2. Do NOT mix data between items." +:+ newline
    +:+ "3. If a field is missing, leave it empty or null." +:+ newline
    +:+ "4. Return results strictly in JSON format." +:+ newline in
  if String.eqb description EmptyString then system_prompt
  else system_prompt +:+ newline +:+ "Additional context: " +:+ description.

Definition user_prompt_text (page_text : string) : string :=
  "Extract data from this page:" +:+ newline +:+ newline +:+ page_text +:+ newline.

Definition page_messages (SP : Pydantic) (BatchWrapper : BatchWrapperT)
    (description page_text : string) : list Message :=
  [ mkMessage "system" (system_prompt_text (schema_json SP BatchWrapper 2) description);
    mkMessage "user" (user_prompt_text page_text) ].

(** The fallback entry of a page whose request failed. *)
Definition error_record (i : Z) (page_text : string) (e : PyExc) : PyVal :=
  PyDict [ ("page", PyInt (i + 1)); ("raw_text", PyStr page_text); ("error", PyStr (exc_str e)) ].

(** [enumerate(l)], counting from [i]. *)
Fixpoint enumerate_from {A} (i : Z) (l : list A) : list (Z * A) :=
  match l with
  | [] => []
  | x :: rest => (i, x) :: enumerate_from (i + 1) rest
  end.

Section Extraction.

Context (P : Provider) (SP : Pydantic).

(** The [try] statement of one page, given the entries gathered so far.
    The messages that announce progress and failure are printed without
    their leading pictograph. *)
Definition extract_page (structured_llm : StructuredModel P) (description : string)
    (BatchWrapper : BatchWrapperT) (total : nat) (i : Z) (page_text : string)
    (extracted_data : list PyVal) : M P (list PyVal) :=
  _ <-! print ("Processing page " +:+ pretty (i + 1) +:+ "/" +:+ pretty total);
  try_except
    (result <-! invoke_model structured_llm (page_messages SP BatchWrapper description page_text);
     let page_data := map PyDict result in
     ret (extracted_data ++ page_data))
    (fun e =>
       _ <-! print ("LLM extraction failed on page " +:+ pretty (i + 1) +:+ ": " +:+ exc_str e);
       ret (extracted_data ++ [error_record i page_text e])).

Fixpoint extract_pages_llm (structured_llm : StructuredModel P) (description : string)
    (BatchWrapper : BatchWrapperT) (total : nat) (units : list (Z * string))
    (extracted_data : list PyVal) : M P (list PyVal) :=
  match units with
  | [] => ret extracted_data
  | (i, page_text) :: rest =>
      extracted_data' <-! extract_page structured_llm description BatchWrapper total
                            i page_text extracted_data;
      extract_pages_llm structured_llm description BatchWrapper total rest extracted_data'
  end.

Definition run_llm_extraction (api_key model_choice description : string)
    (page_texts : list string) (BatchWrapper : BatchWrapperT) : M P (list PyVal) :=
  llm <-! lift (ChatOpenAI P model_choice api_key);
  structured_llm <-! lift (with_structured_output P llm BatchWrapper);
  extract_pages_llm structured_llm description BatchWrapper (length page_texts)
    (enumerate_from 0 page_texts) [].

(** ** 4. process_extraction *)

Definition success_envelope (BatchWrapper : BatchWrapperT) (json_output : string)
    (page_texts : list string) (results : list PyVal) : PyVal :=
  PyDict [ ("success", PyBool true);
           ("schema", schema SP BatchWrapper);
           ("json_output", PyStr json_output);
           ("pages_processed", PyInt (Z.of_nat (length page_texts)));
           ("total_items", PyInt (Z.of_nat (length results))) ].

Definition failure_envelope (e : PyExc) : PyVal :=
  PyDict [ ("success", PyBool false);
           ("error", PyStr (exc_str e));
           ("schema", PyNone);
           ("json_output", PyStr (json_dumps (PyDict [("error", PyStr (exc_str e))]) 2 true));
           ("pages_processed", PyInt 0);
           ("total_items", PyInt 0) ].

Definition process_extraction (fs : gmap string FileContent) (pdf_path : string)
    (fields : list (gmap string PyVal)) (api_key model_choice description : string)
    (num_pages : NumPages) (start_page : Z) : M P PyVal :=
  try_except
    (models <-! lift (build_pydantic_model SP fields "UserDefinedModel");
     let BatchWrapper := snd models in
     page_texts <-! lift (extract_text_from_pdf fs pdf_path num_pages start_page);
     _ <-! print ("Extracted text from " +:+ pretty (length page_texts) +:+ " pages.");
     results <-! run_llm_extraction api_key model_choice description page_texts BatchWrapper;
     let json_output := json_dumps (PyList results) 2 false in
     ret (success_envelope BatchWrapper json_output page_texts results))
    (fun e =>
       _ <-! print ("Extraction failed: " +:+ exc_str e);
       ret (failure_envelope e)).

End Extraction.

(** ** Vocabulary of the statements *)

(** The name of a descriptor, when it has one and it is a string. *)
Definition descriptor_name (f : gmap string PyVal) : option string :=
  match f !! "name" with
  | Some (PyStr n) => Some n
  | _ => None
  end.

(** The declared type of a descriptor can be looked up in [type_map]: it
    is a string, another hashable value, or is left out. *)
Definition type_hashable (f : gmap string PyVal) : bool :=
  py_hashable (default (PyStr "str") (f !! "type")).

(** A descriptor as the form of the frontend builds it. *)
Definition named (f : gmap string PyVal) (n : string) : Prop :=
  f !! "name" = Some (PyStr n).

(** The pair stored under a descriptor's name once its type is resolved. *)
Definition field_annotation (f : gmap string PyVal) (dtype : DType) : Annotation :=
  (if field_required f then Plain dtype else Optional dtype,
   Field (if field_required f then Ellipsis else DefaultNone)
         (field_arg f "description") (field_arg f "examples")).

(** The type a declared type string stands for. *)
Definition dtype_of_string (s : string) : DType :=
  if String.eqb s "int" then TInt
  else if String.eqb s "float" then TFloat
  else if String.eqb s "bool" then TBool
  else TStr.

Definition declared_type (f : gmap string PyVal) : DType :=
  match f !! "type" with
  | Some (PyStr s) => dtype_of_string s
  | _ => TStr
  end.

(** Assignment in a dictionary whose keys are all strings. *)
Fixpoint members_set (key : string) (a : Annotation)
    (members : list (string * Annotation)) : list (string * Annotation) :=
  match members with
  | [] => [(key, a)]
  | (k, a') :: rest =>
      if String.eqb k key then (k, a) :: rest
      else (k, a') :: members_set key a rest
  end.

Definition str_keys (members : list (string * Annotation)) : list (PyVal * Annotation) :=
  map (fun m => (PyStr (fst m), snd m)) members.

(** The members after one assignment per descriptor, in list order. *)
Fixpoint assign_all (fields : list (gmap string PyVal)) (names : list string)
    (members : list (string * Annotation)) : list (string * Annotation) :=
  match fields, names with
  | f :: fields', n :: names' =>
      assign_all fields' names' (members_set n (field_annotation f (declared_type f)) members)
  | _, _ => members
  end.

(** [envelope[key]] on what a call returned. *)
Definition result_get (key : string) (r : Res PyVal) : option PyVal :=
  match r with
  | inr (PyDict d) => dict_get key d
  | _ => None
  end.

(** The pages with offsets from [a] up to, not including, [b]. *)
Definition page_slice (a b : Z) (l : list Page) : list Page :=
  take (Z.to_nat (b - a)) (drop (Z.to_nat a) l).

Section Traces.

Context (P : Provider) (SP : Pydantic).

(** The outcomes of a sequence of requests sent one after the other from
    provider state [st], and the state they leave. *)
Fixpoint invoke_trace (structured_llm : StructuredModel P) (requests : list (list Message))
    (st : ProviderState P) : list (Res (list Item)) :=
  match requests with
  | [] => []
  | r :: rest =>
      fst (invoke P structured_llm r st)
      :: invoke_trace structured_llm rest (snd (invoke P structured_llm r st))
  end.

Fixpoint invoke_state (structured_llm : StructuredModel P) (requests : list (list Message))
    (st : ProviderState P) : ProviderState P :=
  match requests with
  | [] => st
  | r :: rest => invoke_state structured_llm rest (snd (invoke P structured_llm r st))
  end.

(** What one page adds to the output, given the outcome of its request. *)
Definition unit_entries (unit : Z * string) (outcome : Res (list Item)) : list PyVal :=
  match outcome with
  | inr result => map PyDict result
  | inl e => [error_record (fst unit) (snd unit) e]
  end.

Definition page_requests (BatchWrapper : BatchWrapperT) (description : string)
    (page_texts : list string) : list (list Message) :=
  map (page_messages SP BatchWrapper description) page_texts.

(** The per-page contributions of a run that starts in provider state [st]. *)
Definition run_entries (structured_llm : StructuredModel P) (BatchWrapper : BatchWrapperT)
    (description : string) (i : Z) (page_texts : list string) (st : ProviderState P)
    : list (list PyVal) :=
  zip_with unit_entries (enumerate_from i page_texts)
    (invoke_trace structured_llm (page_requests BatchWrapper description page_texts) st).

(** A deterministic model stub: the outcome of a request depends on the
    request alone, not on what the provider has seen before. *)
Definition deterministic_stub : Prop :=
  forall (structured_llm : StructuredModel P) (messages : list Message)
         (st1 st2 : ProviderState P),
    fst (invoke P structured_llm messages st1) = fst (invoke P structured_llm messages st2).

End Traces.

(** ** Sample inputs *)

(** A stub provider: it counts its requests, raises on a page that holds
    the text [page two], and otherwise returns one item that repeats the
    request. *)
Definition stub_invoke (structured_llm : BatchWrapperT) (messages : list Message) (st : nat)
    : Res (list Item) * nat :=
  match messages with
  | [_; m] =>
      if String.eqb (content m) (user_prompt_text "page two")
      then (raise LibraryError "Request timed out.", S st)
      else (ok [[("product_name", PyStr (content m))]], S st)
  | _ => (raise LibraryError "bad request", S st)
  end.

Definition stub_provider : Provider :=
  mkProvider nat (string * string) BatchWrapperT
    (fun model_choice api_key => ok (model_choice, api_key))
    (fun llm BatchWrapper => ok BatchWrapper)
    stub_invoke.

(** A provider that is not deterministic in that sense: it answers with
    the number of requests it has served. *)
Definition counting_provider : Provider :=
  mkProvider nat (string * string) BatchWrapperT
    (fun model_choice api_key => ok (model_choice, api_key))
    (fun llm BatchWrapper => ok BatchWrapper)
    (fun structured_llm messages st => (ok [[("served", PyInt (Z.of_nat st))]], S st)).

(** A stub of pydantic: it refuses a keyword that begins with an
    underscore, and prints a fixed schema. *)
Definition stub_printer : Pydantic :=
  mkPydantic
    (fun n => negb (String.prefix "_" n))
    (fun name members =>
       raise LibraryError "Fields must not use names with leading underscores")
    (fun BatchWrapper => PyDict [("title", PyStr "BatchWrapper")])
    (fun BatchWrapper indent => json_dumps (PyDict [("title", PyStr "BatchWrapper")]) indent true).

Definition stub_world : World stub_provider :=
  @mkWorld stub_provider [] 0%nat [].

Definition sample_fields : list (gmap string PyVal) :=
  [ <["name" := PyStr "product_name"]> (<["type" := PyStr "str"]> (<["required" := PyBool true]> ∅));
    <["name" := PyStr "quantity"]> (<["type" := PyStr "float"]> (<["required" := PyBool false]> ∅));
    <["name" := PyStr "code"]> (<["type" := PyStr "text"]> ∅) ].

(** What schema building returns on [sample_fields]. *)
Definition sample_models : DynamicModelT * BatchWrapperT :=
  let DynamicModel :=
    mkModel "UserDefinedModel"
      [ ("product_name", (Plain TStr, Field Ellipsis None None));
        ("quantity", (Optional TFloat, Field DefaultNone None None));
        ("code", (Optional TStr, Field DefaultNone None None)) ] in
  (DynamicModel, mkBatchWrapper DynamicModel).

Definition duplicate_fields : list (gmap string PyVal) :=
  [ <["name" := PyStr "amount"]> (<["type" := PyStr "int"]> (<["required" := PyBool true]> ∅));
    <["name" := PyStr "amount"]> (<["type" := PyStr "float"]> ∅) ].

Definition nameless_fields : list (gmap string PyVal) :=
  [ <["type" := PyStr "int"]> (<["required" := PyBool true]> ∅) ].

Definition sample_reader : Reader :=
  mkReader [ mkPage (LayoutText (Some "page one")) None;
             mkPage (LayoutText (Some "page two")) None;
             mkPage LayoutTypeError (Some "page three") ].

(** A scanned document: one page, and no text on it. *)
Definition blank_reader : Reader :=
  mkReader [ mkPage (LayoutText (Some EmptyString)) None ].

Definition sample_fs : gmap string FileContent :=
  <["invoice.pdf" := PdfFile sample_reader]>
    (<["scan.pdf" := PdfFile blank_reader]> (<["photo.png" := OtherFile]> ∅)).

(** ** The sidebar of the frontend

    [universal_extractor_frontend.py] keeps the field list and the index
    of the field being edited in the session state, which outlives a run
    of the script; each handler below is the state change of the source
    lines it names. *)

(** [c.isspace()] for a code point below 256. *)
Definition is_space (c : ascii) : bool :=
  let n := N_of_ascii c in
  ((9 <=? n)%N && (n <=? 13)%N) || ((28 <=? n)%N && (n <=? 32)%N)
  || (n =? 133)%N || (n =? 160)%N.

Definition is_comma (c : ascii) : bool := (N_of_ascii c =? 44)%N.

(** [s.split(",")]: one piece more than there are commas. *)
Fixpoint split_comma (s : string) : list string :=
  match s with
  | EmptyString => [EmptyString]
  | String c s' =>
      if is_comma c then EmptyString :: split_comma s'
      else match split_comma s' with
           | [] => [String c EmptyString]
           | piece :: pieces => String c piece :: pieces
           end
  end.

Fixpoint lstrip (s : string) : string :=
  match s with
  | EmptyString => EmptyString
  | String c s' => if is_space c then lstrip s' else s
  end.

Fixpoint rstrip (s : string) : string :=
  match s with
  | EmptyString => EmptyString
  | String c s' =>
      match rstrip s' with
      | EmptyString => if is_space c then EmptyString else String c EmptyString
      | String c' r => String c (String c' r)
      end
  end.

(** [s.strip()]. *)
Definition strip (s : string) : string := rstrip (lstrip s).

Definition nonempty (s : string) : bool := negb (String.eqb s EmptyString).

(** [[ex.strip() for ex in text.split(",") if ex.strip()] if text else []]. *)
Definition parse_examples (field_example : string) : list string :=
  if nonempty field_example
  then List.filter nonempty (map strip (split_comma field_example))
  else [].

(** The entries of the type select box. *)
Definition dtype_name (t : DType) : string :=
  match t with
  | TStr => "str"
  | TInt => "int"
  | TFloat => "float"
  | TBool => "bool"
  end.

(** What the add form and the edit form hold when they are submitted. *)
Record FieldForm : Type := mkFieldForm {
  field_name : string;
  field_type : DType;
  field_required_box : bool;
  field_desc : string;
  field_example : string
}.

(** The dictionary both forms store. *)
Definition form_descriptor (form : FieldForm) : gmap string PyVal :=
  <["name" := PyStr (field_name form)]>
    (<["type" := PyStr (dtype_name (field_type form))]>
       (<["required" := PyBool (field_required_box form)]>
          (<["description" := PyStr (field_desc form)]>
             (<["examples" := PyList (map PyStr (parse_examples (field_example form)))]> ∅)))).

Record SessionState : Type := mkSession {
  ss_fields : list (gmap string PyVal);
  ss_edit_index : option nat
}.

Definition initial_session : SessionState := mkSession [] None.

(** Lines 77-85: the add form appends when a name was typed. *)
Definition add_field (form : FieldForm) (ss : SessionState) : SessionState :=
  if nonempty (field_name form)
  then mkSession (ss_fields ss ++ [form_descriptor form]) (ss_edit_index ss)
  else ss.

(** Lines 93-94: the edit button of row [idx]. *)
Definition click_edit (idx : nat) (ss : SessionState) : SessionState :=
  mkSession (ss_fields ss) (Some idx).

(** Lines 95-97: the delete button of row [idx], [fields.pop(idx)]. *)
Definition click_delete (idx : nat) (ss : SessionState) : Res SessionState :=
  if (idx <? length (ss_fields ss))%nat
  then ok (mkSession (delete idx (ss_fields ss)) (ss_edit_index ss))
  else raise IndexError "pop index out of range".

(** Lines 99-101: every run looks the edited field up when an edit index
    is stored. *)
Definition field_to_edit (ss : SessionState) : Res (option (gmap string PyVal)) :=
  match ss_edit_index ss with
  | None => ok None
  | Some edit_idx =>
      f <-? py_index (ss_fields ss) (Z.of_nat edit_idx);
      ok (Some f)
  end.

(** Line 108: the text the edit form shows for the examples. *)
Definition examples_text (examples : list string) : string := join ", " examples.

(** Lines 111-121: saving the edit form. *)
Definition save_changes (form : FieldForm) (ss : SessionState) : Res SessionState :=
  match ss_edit_index ss with
  | None => ok ss
  | Some edit_idx =>
      if (edit_idx <? length (ss_fields ss))%nat
      then ok (mkSession (<[edit_idx := form_descriptor form]> (ss_fields ss)) None)
      else raise IndexError "list assignment index out of range"
  end.

Inductive SidebarEvent : Type :=
| AddField (form : FieldForm)
| ClickEdit (idx : nat)
| ClickDelete (idx : nat)
| SaveChanges (form : FieldForm).

(** The handler of one widget of the sidebar. *)
Definition sidebar_step (ev : SidebarEvent) (ss : SessionState) : Res SessionState :=
  match ev with
  | AddField form => ok (add_field form ss)
  | ClickEdit idx => ok (click_edit idx ss)
  | ClickDelete idx => click_delete idx ss
  | SaveChanges form => save_changes form ss
  end.

Fixpoint sidebar_run (events : list SidebarEvent) (ss : SessionState) : Res SessionState :=
  match events with
  | [] => ok ss
  | ev :: rest =>
      ss' <-? sidebar_step ev ss;
      sidebar_run rest ss'
  end.

(** [d[key]]. *)
Definition py_getitem (key : string) (v : PyVal) : Res PyVal :=
  match v with
  | PyDict d =>
      match dict_get key d with
      | Some x => ok x
      | None => key_error key
      end
  | _ => raise TypeError "object is not subscriptable"
  end.

(** Lines 147-162: the run button, up to the argument of [pd.DataFrame]. *)
Definition submit_and_run (P : Provider) (SP : Pydantic)
    (fs : gmap string FileContent) (file_path : string) (ss : SessionState)
    (api_key model_choice description : string) (no_of_pages : NumPages)
    (page_number_to_extract_from : Z) : M P (option PyVal) :=
  if nonempty api_key
  then
    result <-! process_extraction P SP fs file_path (ss_fields ss) api_key model_choice
                 description no_of_pages page_number_to_extract_from;
    raw_output <-! lift (py_getitem "raw_output" result);
    ret (Some raw_output)
  else ret None.

(** The names of a list in the order in which they first occur. *)
Definition first_occurrences (names : list string) (seen : list string) : list string :=
  fold_left (fun acc n => if bool_decide (n ∈ acc) then acc else acc ++ [n]) names seen.

(** What a page adds to [total_items]. *)
Definition outcome_size (outcome : Res (list Item)) : nat :=
  match outcome with
  | inl _ => 1%nat
  | inr result => length result
  end.

(** Sample input of the sidebar. *)
Definition sample_form : FieldForm :=
  mkFieldForm "product_name" TStr true "Name of the product" " Widget , Gadget,,  ".

(** A provider whose client cannot be built without a key. *)
Definition keyless_provider : Provider :=
  mkProvider nat (string * string) BatchWrapperT
    (fun model_choice api_key =>
       if nonempty api_key then ok (model_choice, api_key)
       else raise LibraryError "The api_key client option must be set")
    (fun llm BatchWrapper => ok BatchWrapper)
    stub_invoke.

(** A text without a comma. *)
Fixpoint comma_free (s : string) : bool :=
  match s with
  | EmptyString => true
  | String c s' => negb (is_comma c) && comma_free s'
  end.

(** A text that is empty or begins with a character that is no space. *)
Definition starts_clean (s : string) : Prop :=
  match s with
  | EmptyString => True
  | String c _ => is_space c = false
  end.

(** * Properties *)

(** ** Schema builder *)

Lemma type_map_lookup (s : string) :
  default TStr (type_map !! s) = dtype_of_string s.
Proof.
  unfold type_map, dtype_of_string.
  destruct (String.eqb_spec s "int") as [->|Hi]; [reflexivity|].
  destruct (String.eqb_spec s "float") as [->|Hf]; [reflexivity|].
  destruct (String.eqb_spec s "bool") as [->|Hb]; [reflexivity|].
  destruct (decide (s = "str")) as [->|Hs]; [reflexivity|].
  rewrite !lookup_insert_ne by congruence.
  by rewrite lookup_empty.
Qed.

Lemma resolve_dtype_declared (f : gmap string PyVal) :
  type_hashable f = true -> resolve_dtype f = inr (declared_type f).
Proof.
  unfold type_hashable, resolve_dtype, declared_type.
  destruct (f !! "type") as [[]|]; simpl; try discriminate; try reflexivity.
  intros _. unfold ok. f_equal. apply type_map_lookup.
Qed.

Lemma annotations_set_str (n : string) (a : Annotation) (m : list (string * Annotation)) :
  annotations_set (PyStr n) a (str_keys m) = str_keys (members_set n a m).
Proof.
  induction m as [|[k a'] m IH]; simpl; [reflexivity|].
  destruct (String.eqb k n); simpl; [reflexivity|].
  by rewrite IH.
Qed.

Lemma build_field_named (f : gmap string PyVal) (n : string) (m : list (string * Annotation)) :
  named f n -> type_hashable f = true ->
  build_field (str_keys m) f
  = inr (str_keys (members_set n (field_annotation f (declared_type f)) m)).
Proof.
  intros Hn Ht. unfold build_field.
  rewrite (resolve_dtype_declared f Ht). simpl.
  rewrite Hn. simpl. unfold ok.
  by rewrite annotations_set_str.
Qed.

Lemma build_fields_named (fields : list (gmap string PyVal)) (names : list string) :
  Forall2 named fields names ->
  Forall (fun f => type_hashable f = true) fields ->
  forall m, build_fields fields (str_keys m) = inr (str_keys (assign_all fields names m)).
Proof.
  induction 1 as [|f n fields names Hn _ IH]; intros Ht m; simpl; [reflexivity|].
  inversion Ht as [|? ? Hf Hrest]; subst.
  rewrite (build_field_named f n m Hn Hf). simpl.
  by apply IH.
Qed.

Lemma keyword_args_str (m : list (string * Annotation)) :
  keyword_args (str_keys m) = inr m.
Proof.
  induction m as [|[k a] m IH]; simpl; [reflexivity|].
  rewrite IH. reflexivity.
Qed.

Lemma build_pydantic_model_keywords (SP : Pydantic) (fields : list (gmap string PyVal))
    (names : list string) (name : string) :
  Forall2 named fields names ->
  Forall (fun f => type_hashable f = true) fields ->
  build_pydantic_model SP fields name
  = res_bind
      (if forallb (accepts_field_name SP) (map fst (assign_all fields names []))
       then ok (mkModel name (assign_all fields names []))
       else create_model_other SP name (assign_all fields names []))
      (fun DynamicModel => ok (DynamicModel, mkBatchWrapper DynamicModel)).
Proof.
  intros Hn Ht. unfold build_pydantic_model.
  change (@nil (PyVal * Annotation)) with (str_keys []).
  rewrite (build_fields_named fields names Hn Ht). simpl.
  unfold create_model. by rewrite keyword_args_str.
Qed.

Lemma member_get_set_eq (n : string) (a : Annotation) (m : list (string * Annotation)) :
  member_get n (members_set n a m) = Some a.
Proof.
  induction m as [|[k a'] m IH]; simpl.
  - by rewrite String.eqb_refl.
  - destruct (String.eqb k n) eqn:E; simpl; rewrite E; [reflexivity | exact IH].
Qed.

Lemma member_get_set_ne (n n' : string) (a : Annotation) (m : list (string * Annotation)) :
  n <> n' -> member_get n' (members_set n a m) = member_get n' m.
Proof.
  intros Hne. induction m as [|[k a'] m IH]; simpl.
  - destruct (String.eqb_spec n n'); [contradiction | reflexivity].
  - destruct (String.eqb_spec k n) as [->|Hk]; simpl.
    + destruct (String.eqb_spec n n'); [contradiction | reflexivity].
    + by rewrite IH.
Qed.

Lemma members_set_fresh (n : string) (a : Annotation) (m : list (string * Annotation)) :
  n ∉ map fst m -> members_set n a m = m ++ [(n, a)].
Proof.
  induction m as [|[k a'] m IH]; simpl; intros Hn; [reflexivity|].
  apply not_elem_of_cons in Hn as [Hne Hn].
  destruct (String.eqb_spec k n) as [->|_]; [contradiction|].
  by rewrite IH.
Qed.

Lemma members_set_keys (n : string) (a : Annotation) (m : list (string * Annotation)) :
  n ∈ map fst m -> map fst (members_set n a m) = map fst m.
Proof.
  induction m as [|[k a'] m IH]; simpl; intros Hn.
  - by apply elem_of_nil in Hn.
  - destruct (String.eqb_spec k n) as [->|Hk]; simpl; [reflexivity|].
    apply elem_of_cons in Hn as [->|Hn]; [contradiction|].
    by rewrite IH.
Qed.

Lemma members_set_elem (n n' : string) (a : Annotation) (m : list (string * Annotation)) :
  n' ∈ map fst (members_set n a m) <-> n' = n \/ n' ∈ map fst m.
Proof.
  destruct (decide (n ∈ map fst m)) as [Hin|Hout].
  - rewrite members_set_keys by done. split; [auto|]. intros [->|]; done.
  - rewrite members_set_fresh by done. rewrite map_app, elem_of_app. simpl.
    rewrite list_elem_of_singleton. tauto.
Qed.

Lemma members_set_NoDup (n : string) (a : Annotation) (m : list (string * Annotation)) :
  NoDup (map fst m) -> NoDup (map fst (members_set n a m)).
Proof.
  intros Hnd. destruct (decide (n ∈ map fst m)) as [Hin|Hout].
  - by rewrite members_set_keys.
  - rewrite members_set_fresh by done. rewrite map_app. simpl.
    apply NoDup_app. split; [done|]. split.
    + intros x Hx Hx'. apply list_elem_of_singleton in Hx'. by subst.
    + apply NoDup_singleton.
Qed.

Lemma assign_all_NoDup (fields : list (gmap string PyVal)) (names : list string) :
  forall m, NoDup (map fst m) -> NoDup (map fst (assign_all fields names m)).
Proof.
  revert names. induction fields as [|f fields IH]; intros [|n names] m Hnd; simpl; try done.
  apply IH. by apply members_set_NoDup.
Qed.

Lemma assign_all_elem (fields : list (gmap string PyVal)) (names : list string) (n : string) :
  length fields = length names ->
  forall m, n ∈ map fst (assign_all fields names m) <-> n ∈ map fst m \/ n ∈ names.
Proof.
  revert names. induction fields as [|f fields IH]; intros [|n' names] Hlen m;
    simpl in *; try discriminate.
  - rewrite elem_of_nil. tauto.
  - rewrite IH by lia. rewrite members_set_elem, elem_of_cons. tauto.
Qed.

Lemma assign_all_other (fields : list (gmap string PyVal)) (names : list string) (n : string) :
  n ∉ names ->
  forall m, member_get n (assign_all fields names m) = member_get n m.
Proof.
  revert names. induction fields as [|f fields IH]; intros [|n' names] Hn m; simpl; try done.
  apply not_elem_of_cons in Hn as [Hne Hn].
  rewrite IH by done. apply member_get_set_ne. congruence.
Qed.

Lemma assign_all_last (fields : list (gmap string PyVal)) (names : list string)
    (i : nat) (f : gmap string PyVal) (n : string) :
  fields !! i = Some f -> names !! i = Some n ->
  (forall j, (i < j)%nat -> names !! j <> Some n) ->
  forall m, member_get n (assign_all fields names m)
            = Some (field_annotation f (declared_type f)).
Proof.
  revert names i. induction fields as [|f' fields IH]; intros [|n' names] [|i] Hf Hn Hlast m;
    simpl in *; try discriminate.
  - injection Hf as ->. injection Hn as ->.
    rewrite assign_all_other; [apply member_get_set_eq|].
    intros Hin. apply list_elem_of_lookup in Hin as [j Hj].
    apply (Hlast (S j)); [lia | exact Hj].
  - apply (IH names i); try done.
    intros j Hj. apply (Hlast (S j)). lia.
Qed.

Lemma assign_all_fresh (fields : list (gmap string PyVal)) (names : list string) :
  length fields = length names ->
  forall m, NoDup (map fst m ++ names) ->
  assign_all fields names m
  = m ++ zip names (map (fun f => field_annotation f (declared_type f)) fields).
Proof.
  revert names. induction fields as [|f fields IH]; intros [|n names] Hlen m Hnd;
    simpl in *; try discriminate.
  - by rewrite app_nil_r.
  - apply NoDup_app in Hnd as (Hm & Hdisj & Hnames).
    apply NoDup_cons in Hnames as [Hn Hnames].
    assert (Hfresh : n ∉ map fst m).
    { intros Hin. apply (Hdisj n Hin). apply elem_of_cons. by left. }
    rewrite members_set_fresh by done.
    rewrite IH.
    + by rewrite <- app_assoc.
    + lia.
    + rewrite map_app. simpl. rewrite <- app_assoc. simpl.
      apply NoDup_app. split; [done|]. split.
      * intros x Hx Hx'. apply (Hdisj x Hx). exact Hx'.
      * apply NoDup_cons. done.
Qed.

(** When pydantic takes every name of the list as a field name, schema
    building returns the type whose members are the assignments made. *)
Lemma build_pydantic_model_named (SP : Pydantic) (fields : list (gmap string PyVal))
    (names : list string) (name : string) :
  Forall2 named fields names ->
  Forall (fun f => type_hashable f = true) fields ->
  Forall (fun n => accepts_field_name SP n = true) names ->
  build_pydantic_model SP fields name
  = inr (mkModel name (assign_all fields names []),
         mkBatchWrapper (mkModel name (assign_all fields names []))).
Proof.
  intros Hn Ht Hacc.
  rewrite (build_pydantic_model_keywords SP fields names name Hn Ht).
  assert (Hall : forallb (accepts_field_name SP) (map fst (assign_all fields names [])) = true).
  { apply forallb_forall. intros n Hin.
    apply list_elem_of_In in Hin.
    apply (assign_all_elem fields names n (Forall2_length _ _ _ Hn)) in Hin as [Hin|Hin].
    - by apply elem_of_nil in Hin.
    - rewrite Forall_forall in Hacc. by apply Hacc. }
  by rewrite Hall.
Qed.

(** What the member of a descriptor says about its declared type. *)
Lemma declared_type_cases (f : gmap string PyVal) :
  (f !! "type" = Some (PyStr "int") -> declared_type f = TInt) /\
  (f !! "type" = Some (PyStr "float") -> declared_type f = TFloat) /\
  (f !! "type" = Some (PyStr "bool") -> declared_type f = TBool) /\
  (f !! "type" = None -> declared_type f = TStr) /\
  (forall v, f !! "type" = Some v ->
     v <> PyStr "int" -> v <> PyStr "float" -> v <> PyStr "bool" -> declared_type f = TStr).
Proof.
  unfold declared_type.
  repeat split; try (intros ->; reflexivity).
  intros v -> Hi Hf Hb. destruct v; try reflexivity.
  unfold dtype_of_string.
  destruct (String.eqb_spec s "int") as [->|_]; [congruence|].
  destruct (String.eqb_spec s "float") as [->|_]; [congruence|].
  destruct (String.eqb_spec s "bool") as [->|_]; [congruence|].
  reflexivity.
Qed.

(** C7, as the code has it.  For every descriptor list whose descriptors
    have a name that pydantic takes as a field name and a declared type
    that is a string, another hashable value, or left out, schema building
    raises nothing, and the member of each descriptor (of the last one,
    for a name that is repeated) has one of the four types: [int],
    [float] and [bool] give their types, and [str], a missing type and any
    unrecognised value give string. *)
Theorem type_resolution_fallback (SP : Pydantic) (fields : list (gmap string PyVal))
    (names : list string) (name : string) :
  Forall2 named fields names ->
  Forall (fun f => type_hashable f = true) fields ->
  Forall (fun n => accepts_field_name SP n = true) names ->
  exists DynamicModel : DynamicModelT,
    build_pydantic_model SP fields name = inr (DynamicModel, mkBatchWrapper DynamicModel) /\
    forall (i : nat) (f : gmap string PyVal) (n : string),
      fields !! i = Some f -> names !! i = Some n ->
      (forall j, (i < j)%nat -> names !! j <> Some n) ->
      exists member : Annotation,
        member_get n (model_fields DynamicModel) = Some member /\
        declared_dtype member ∈ [TStr; TInt; TFloat; TBool] /\
        (f !! "type" = Some (PyStr "int") -> declared_dtype member = TInt) /\
        (f !! "type" = Some (PyStr "float") -> declared_dtype member = TFloat) /\
        (f !! "type" = Some (PyStr "bool") -> declared_dtype member = TBool) /\
        (f !! "type" = None -> declared_dtype member = TStr) /\
        (forall v, f !! "type" = Some v ->
           v <> PyStr "int" -> v <> PyStr "float" -> v <> PyStr "bool" ->
           declared_dtype member = TStr).
Proof.
  intros Hn Ht Hacc. eexists.
  split; [by apply (build_pydantic_model_named SP fields names)|].
  intros i f n Hf Hi Hlast. simpl.
  exists (field_annotation f (declared_type f)).
  split; [by apply (assign_all_last fields names i)|].
  assert (Hd : declared_dtype (field_annotation f (declared_type f)) = declared_type f).
  { unfold declared_dtype, field_annotation. simpl. by destruct (field_required f). }
  rewrite Hd.
  split; [destruct (declared_type f); set_solver|].
  apply declared_type_cases.
Qed.

Lemma type_resolution_fallback_witness :
  exists (DynamicModel : DynamicModelT) (member : Annotation),
    build_pydantic_model stub_printer sample_fields "UserDefinedModel"
    = inr (DynamicModel, mkBatchWrapper DynamicModel) /\
    member_get "code" (model_fields DynamicModel) = Some member /\
    declared_dtype member = TStr.
Proof.
  destruct (type_resolution_fallback stub_printer sample_fields
              ["product_name"; "quantity"; "code"] "UserDefinedModel")
    as (DM & Hb & Hmembers);
    [repeat constructor | repeat constructor | repeat constructor |].
  destruct (Hmembers 2%nat (<["name" := PyStr "code"]> (<["type" := PyStr "text"]> ∅)) "code")
    as (member & Hget & _ & _ & _ & _ & _ & Hother).
  - reflexivity.
  - reflexivity.
  - intros [|[|[|j]]] Hj; try lia; discriminate.
  - exists DM, member. split; [exact Hb|]. split; [exact Hget|].
    apply (Hother (PyStr "text")); [reflexivity | discriminate..].
Defined.

(** C7, as stated, fails: a declared type that is a list is not resolved
    to string; schema building raises [TypeError] on it. *)
Lemma unhashable_type_not_resolved :
  build_pydantic_model stub_printer
    [<["name" := PyStr "price"]> (<["type" := PyList [PyStr "float"]]> ∅)] "UserDefinedModel"
  = inl (mkExc TypeError "unhashable type: 'list'") /\
  resolve_dtype (<["name" := PyStr "price"]> (<["type" := PyList [PyStr "float"]]> ∅))
  = inl (mkExc TypeError "unhashable type: 'list'").
Proof. split; vm_compute; reflexivity. Qed.



(** C5, as the code has it.  Schema building does not reject a shared
    name: for every descriptor list whose descriptors have a string name
    that pydantic takes as a field name and a hashable type, it succeeds;
    the record type has one member for each distinct name, and a name that
    several descriptors share is defined by the last of them. *)
Theorem duplicate_names_overwrite (SP : Pydantic) (fields : list (gmap string PyVal))
    (names : list string) (name : string) :
  Forall2 named fields names ->
  Forall (fun f => type_hashable f = true) fields ->
  Forall (fun n => accepts_field_name SP n = true) names ->
  exists members : list (string * Annotation),
    build_pydantic_model SP fields name
    = inr (mkModel name members, mkBatchWrapper (mkModel name members)) /\
    NoDup (map fst members) /\
    (forall n, n ∈ map fst members <-> n ∈ names) /\
    (forall (i : nat) f n,
       fields !! i = Some f -> names !! i = Some n ->
       (forall j, (i < j)%nat -> names !! j <> Some n) ->
       member_get n members = Some (field_annotation f (declared_type f))).
Proof.
  intros Hn Ht Hacc. exists (assign_all fields names []).
  split; [by apply build_pydantic_model_named|].
  pose proof (Forall2_length _ _ _ Hn) as Hlen.
  split; [apply assign_all_NoDup; constructor|].
  split.
  - intros n. rewrite assign_all_elem by done. simpl. rewrite elem_of_nil. tauto.
  - intros i f n Hf Hi Hlast. by apply (assign_all_last fields names i).
Qed.

Lemma duplicate_names_overwrite_witness :
  exists members : list (string * Annotation),
    build_pydantic_model stub_printer duplicate_fields "UserDefinedModel"
    = inr (mkModel "UserDefinedModel" members,
           mkBatchWrapper (mkModel "UserDefinedModel" members)) /\
    NoDup (map fst members) /\
    member_get "amount" members = Some (Optional TFloat, Field DefaultNone None None).
Proof.
  destruct (duplicate_names_overwrite stub_printer duplicate_fields ["amount"; "amount"]
              "UserDefinedModel") as (members & Hb & Hnd & _ & Hlast).
  - repeat constructor.
  - repeat constructor.
  - repeat constructor.
  - exists members. split; [exact Hb|]. split; [exact Hnd|].
    rewrite (Hlast 1%nat (<["name" := PyStr "amount"]> (<["type" := PyStr "float"]> ∅)) "amount");
      [reflexivity | reflexivity | reflexivity |].
    intros [|[|j]] Hj; try lia; discriminate.
Defined.

(** C5, as stated, fails: two descriptors share the name [amount], and
    schema building returns a record type instead of raising. *)
Lemma duplicate_names_not_rejected :
  descriptor_name <$> duplicate_fields = [Some "amount"; Some "amount"] /\
  build_pydantic_model stub_printer duplicate_fields "UserDefinedModel"
  = inr (mkModel "UserDefinedModel" [("amount", (Optional TFloat, Field DefaultNone None None))],
         mkBatchWrapper
           (mkModel "UserDefinedModel" [("amount", (Optional TFloat, Field DefaultNone None None))]))
  /\ ~ (exists e : PyExc,
          build_pydantic_model stub_printer duplicate_fields "UserDefinedModel" = inl e).
Proof.
  split; [reflexivity|].
  split; [vm_compute; reflexivity|].
  intros [e He]. vm_compute in He. discriminate.
Qed.

(** The shared name is not rejected by any pydantic that takes [amount] as
    a field name. *)
Lemma shared_name_kept_by_any_pydantic (SP : Pydantic) :
  accepts_field_name SP "amount" = true ->
  build_pydantic_model SP duplicate_fields "UserDefinedModel"
  = inr (mkModel "UserDefinedModel" [("amount", (Optional TFloat, Field DefaultNone None None))],
         mkBatchWrapper
           (mkModel "UserDefinedModel" [("amount", (Optional TFloat, Field DefaultNone None None))])).
Proof.
  intros Hacc.
  rewrite (build_pydantic_model_named SP duplicate_fields ["amount"; "amount"]);
    [reflexivity | repeat constructor | repeat constructor | repeat constructor; exact Hacc].
Qed.

(** Schema building can fail for another reason than a shared name: a
    descriptor without a [name] key raises [KeyError]. *)
Example nameless_descriptor_raises :
  build_pydantic_model stub_printer nameless_fields "UserDefinedModel"
  = inl (mkExc KeyError "'name'").
Proof. vm_compute. reflexivity. Qed.

(** ** Text segmenter *)

Lemma py_index_lookup {A} (l : list A) (i : Z) (x : A) :
  0 <= i -> l !! Z.to_nat i = Some x -> py_index l i = inr x.
Proof.
  intros Hi Hx. unfold py_index.
  pose proof (lookup_lt_Some _ _ _ Hx) as Hlt.
  destruct (i <? 0) eqn:E0; [lia|].
  destruct (i <? 0); simpl.
  - lia.
  - destruct (Z.of_nat (length l) <=? i) eqn:E1; [lia|]. by rewrite Hx.
Qed.

Lemma extract_pages_slice (reader : Reader) (n : nat) :
  forall (a : Z) (page_texts : list string),
    0 <= a -> a + Z.of_nat n <= Z.of_nat (length (pages reader)) ->
    extract_pages reader (range_from a n) page_texts
    = inr (page_texts ++ map page_extract_text (take n (drop (Z.to_nat a) (pages reader)))).
Proof.
  induction n as [|n IH]; intros a page_texts Ha Hb; simpl.
  - by rewrite app_nil_r.
  - destruct (lookup_lt_is_Some_2 (pages reader) (Z.to_nat a)) as [page Hpage]; [lia|].
    rewrite (py_index_lookup _ _ _ Ha Hpage). simpl.
    rewrite IH by lia.
    rewrite (drop_S _ _ _ Hpage). simpl.
    replace (Z.to_nat (a + 1)) with (S (Z.to_nat a)) by lia.
    by rewrite <- app_assoc.
Qed.

Lemma extract_pages_range (reader : Reader) (num_pages : NumPages) (start_page : Z) :
  extract_pages reader
    (py_range (start_index start_page)
       (end_index (Z.of_nat (length (pages reader))) num_pages (start_index start_page))) []
  = inr (map page_extract_text
           (page_slice (start_index start_page)
              (end_index (Z.of_nat (length (pages reader))) num_pages (start_index start_page))
              (pages reader))).
Proof.
  unfold py_range, page_slice.
  set (a := start_index start_page).
  set (b := end_index _ num_pages a).
  destruct (Z.le_gt_cases b a) as [Hle|Hgt].
  - replace (Z.to_nat (b - a)) with 0%nat by lia. reflexivity.
  - rewrite extract_pages_slice; [reflexivity | unfold a, start_index; lia |].
    unfold b, end_index in *. destruct num_pages; lia.
Qed.

Lemma page_slice_length (a b : Z) (l : list Page) :
  0 <= a -> b <= Z.of_nat (length l) ->
  length (page_slice a b l) = Z.to_nat (b - a).
Proof.
  intros Ha Hb. unfold page_slice. rewrite length_take, length_drop. lia.
Qed.

(** The whole function on an opened document: the pages of the resolved
    range when there is one, the error otherwise. *)
Lemma extract_text_from_reader_spec (reader : Reader) (num_pages : NumPages) (start_page : Z) :
  extract_text_from_reader reader num_pages start_page
  = if start_index start_page
       <? end_index (Z.of_nat (length (pages reader))) num_pages (start_index start_page)
    then inr (map page_extract_text
                (page_slice (start_index start_page)
                   (end_index (Z.of_nat (length (pages reader))) num_pages
                      (start_index start_page))
                   (pages reader)))
    else raise ValueError no_text_message.
Proof.
  unfold extract_text_from_reader. rewrite extract_pages_range. simpl.
  set (a := start_index start_page).
  set (b := end_index _ num_pages a).
  assert (Hlen : length (map page_extract_text (page_slice a b (pages reader)))
                 = Z.to_nat (b - a)).
  { rewrite length_map. apply page_slice_length.
    - unfold a, start_index. lia.
    - unfold b, end_index. destruct num_pages; lia. }
  destruct (a <? b) eqn:E.
  - destruct (map page_extract_text (page_slice a b (pages reader))); [simpl in Hlen; lia | reflexivity].
  - destruct (map page_extract_text (page_slice a b (pages reader))); [reflexivity | simpl in Hlen; lia].
Qed.

(** C4 (segmentation bounds).  For a document of [P] pages, the start page
    resolves to the offset [max(0, s-1)], the end boundary to
    [min(offset + c, P)] for a number [c] and to [P] for [ALL]; the loop
    collects the texts of exactly the pages of that range, in ascending
    order, and the function returns them (a range that holds a page); from
    start page 1 with count [c] these are the first [min(c, P)] pages. *)
Theorem segmentation_bounds (fs : gmap string FileContent) (pdf_path : string)
    (reader : Reader) (num_pages : NumPages) (start_page : Z) :
  fs !! pdf_path = Some (PdfFile reader) ->
  start_index start_page = Z.max 0 (start_page - 1) /\
  end_index (Z.of_nat (length (pages reader))) num_pages (start_index start_page)
  = match num_pages with
    | ALL => Z.of_nat (length (pages reader))
    | Count c => Z.min (start_index start_page + c) (Z.of_nat (length (pages reader)))
    end /\
  extract_pages reader
    (py_range (start_index start_page)
       (end_index (Z.of_nat (length (pages reader))) num_pages (start_index start_page))) []
  = inr (map page_extract_text
           (page_slice (start_index start_page)
              (end_index (Z.of_nat (length (pages reader))) num_pages (start_index start_page))
              (pages reader))) /\
  (start_index start_page
   < end_index (Z.of_nat (length (pages reader))) num_pages (start_index start_page) ->
   exists units : list string,
     extract_text_from_pdf fs pdf_path num_pages start_page = inr units /\
     Z.of_nat (length units)
     = end_index (Z.of_nat (length (pages reader))) num_pages (start_index start_page)
       - start_index start_page /\
     forall k : nat,
       (k < length units)%nat ->
       units !! k
       = page_extract_text <$> pages reader !! (Z.to_nat (start_index start_page) + k)%nat) /\
  (forall c : Z,
     start_page = 1 -> num_pages = Count c ->
     0 < Z.min c (Z.of_nat (length (pages reader))) ->
     exists units : list string,
       extract_text_from_pdf fs pdf_path num_pages start_page = inr units /\
       Z.of_nat (length units) = Z.min c (Z.of_nat (length (pages reader))) /\
       units = map page_extract_text
                 (take (Z.to_nat (Z.min c (Z.of_nat (length (pages reader))))) (pages reader))).
Proof.
  intros Hfile.
  assert (Hopen : extract_text_from_pdf fs pdf_path num_pages start_page
                  = extract_text_from_reader reader num_pages start_page).
  { unfold extract_text_from_pdf, PdfReader. by rewrite Hfile. }
  split; [reflexivity|]. split; [reflexivity|].
  split; [apply extract_pages_range|].
  split.
  - intros Hlt. rewrite Hopen, extract_text_from_reader_spec.
    apply Z.ltb_lt in Hlt as Hltb. rewrite Hltb.
    eexists. split; [reflexivity|].
    assert (Hlen : length (page_slice (start_index start_page)
                     (end_index (Z.of_nat (length (pages reader))) num_pages
                        (start_index start_page)) (pages reader))
                   = Z.to_nat (end_index (Z.of_nat (length (pages reader))) num_pages
                                 (start_index start_page) - start_index start_page)).
    { apply page_slice_length.
      - unfold start_index. lia.
      - unfold end_index. destruct num_pages; lia. }
    split.
    + rewrite length_map, Hlen. lia.
    + intros k Hk. rewrite length_map in Hk.
      rewrite list_lookup_fmap. unfold page_slice in *.
      rewrite lookup_take_lt by lia.
      by rewrite lookup_drop.
  - intros c -> -> Hpos. rewrite Hopen, extract_text_from_reader_spec.
    unfold start_index, end_index, page_slice.
    change (Z.max 0 (1 - 1)) with 0. rewrite Z.add_0_l, Z.sub_0_r.
    destruct (0 <? Z.min c (Z.of_nat (length (pages reader)))) eqn:E; [|lia].
    change (Z.to_nat 0) with 0%nat. rewrite drop_0.
    eexists. split; [reflexivity|].
    split; [|reflexivity].
    rewrite length_map, length_take. lia.
Qed.

Lemma segmentation_bounds_witness :
  sample_fs !! "invoice.pdf" = Some (PdfFile sample_reader) /\
  extract_text_from_pdf sample_fs "invoice.pdf" (Count 2) 1 = inr ["page one"; "page two"].
Proof.
  split; [reflexivity|].
  destruct (segmentation_bounds sample_fs "invoice.pdf" sample_reader (Count 2) 1)
    as (_ & _ & _ & _ & Hfirst); [reflexivity|].
  destruct (Hfirst 2) as (units & Hu & _ & ->); [reflexivity | reflexivity | reflexivity |].
  exact Hu.
Defined.

Example segment_middle_pages :
  extract_text_from_pdf sample_fs "invoice.pdf" (Count 5) 2 = inr ["page two"; "page three"].
Proof. vm_compute. reflexivity. Qed.

(** The error of the segmenter is raised exactly on an empty page range. *)
Lemma empty_range_raises (reader : Reader) (num_pages : NumPages) (start_page : Z) :
  extract_text_from_reader reader num_pages start_page = raise ValueError no_text_message
  <-> end_index (Z.of_nat (length (pages reader))) num_pages (start_index start_page)
      <= start_index start_page.
Proof.
  rewrite extract_text_from_reader_spec.
  destruct (start_index start_page <? _) eqn:E; split; intros H; try lia; try done.
Qed.

Lemma start_beyond_document_raises (reader : Reader) (num_pages : NumPages) (start_page : Z) :
  Z.of_nat (length (pages reader)) < start_page ->
  extract_text_from_reader reader num_pages start_page = raise ValueError no_text_message.
Proof.
  intros H. apply empty_range_raises.
  unfold start_index, end_index. destruct num_pages; lia.
Qed.

(** A page range that holds pages is returned even when none of its pages
    has any text. *)
Lemma blank_pages_are_returned (reader : Reader) (num_pages : NumPages) (start_page : Z) :
  start_index start_page
  < end_index (Z.of_nat (length (pages reader))) num_pages (start_index start_page) ->
  Forall (fun page => page_extract_text page = EmptyString) (pages reader) ->
  exists units : list string,
    extract_text_from_reader reader num_pages start_page = inr units /\
    units <> [] /\ Forall (fun text => text = EmptyString) units.
Proof.
  intros Hlt Hblank. rewrite extract_text_from_reader_spec.
  apply Z.ltb_lt in Hlt as Hltb. rewrite Hltb.
  eexists. split; [reflexivity|]. split.
  - intros Hnil. apply (f_equal length) in Hnil.
    rewrite length_map, page_slice_length in Hnil.
    + simpl in Hnil. lia.
    + unfold start_index. lia.
    + unfold end_index. destruct num_pages; lia.
  - apply Forall_fmap. unfold page_slice.
    apply Forall_take, Forall_drop.
    eapply Forall_impl; [exact Hblank|]. intros page Hpage. exact Hpage.
Qed.

(** ** Extraction invoker *)

Section ExtractionFacts.

Context (P : Provider) (SP : Pydantic).

(** One page: whatever its request does, the loop goes on with the
    entries so far followed by that page's entries. *)
Lemma extract_page_spec (structured_llm : StructuredModel P) (description : string)
    (BatchWrapper : BatchWrapperT) (total : nat) (i : Z) (page_text : string)
    (extracted_data : list PyVal) (w : World P) :
  exists w' : World P,
    extract_page P SP structured_llm description BatchWrapper total i page_text extracted_data w
    = (inr (extracted_data
            ++ unit_entries (i, page_text)
                 (fst (invoke P structured_llm
                         (page_messages SP BatchWrapper description page_text) (llm_state w)))),
       w') /\
    llm_state w'
    = snd (invoke P structured_llm
             (page_messages SP BatchWrapper description page_text) (llm_state w)) /\
    llm_calls w' = llm_calls w ++ [page_messages SP BatchWrapper description page_text].
Proof.
  unfold extract_page, bind, try_except, invoke_model, print, ret. simpl.
  destruct (invoke P structured_llm _ (llm_state w)) as [[e|result] st]; simpl;
    eexists; split; try reflexivity; split; reflexivity.
Qed.

Lemma extract_pages_llm_spec (structured_llm : StructuredModel P) (description : string)
    (BatchWrapper : BatchWrapperT) (total : nat) (page_texts : list string) :
  forall (i : Z) (extracted_data : list PyVal) (w : World P),
  exists w' : World P,
    extract_pages_llm P SP structured_llm description BatchWrapper total
      (enumerate_from i page_texts) extracted_data w
    = (inr (extracted_data
            ++ concat (run_entries P SP structured_llm BatchWrapper description i page_texts
                         (llm_state w))),
       w') /\
    llm_state w'
    = invoke_state P structured_llm (page_requests SP BatchWrapper description page_texts)
        (llm_state w) /\
    llm_calls w' = llm_calls w ++ page_requests SP BatchWrapper description page_texts.
Proof.
  induction page_texts as [|page_text rest IH]; intros i extracted_data w.
  - exists w. simpl. unfold ret. by rewrite !app_nil_r.
  - simpl. unfold bind at 1.
    destruct (extract_page_spec structured_llm description BatchWrapper total i page_text
                extracted_data w) as (w1 & -> & Hst & Hcalls).
    destruct (IH (i + 1) (extracted_data
                          ++ unit_entries (i, page_text)
                               (fst (invoke P structured_llm
                                       (page_messages SP BatchWrapper description page_text)
                                       (llm_state w)))) w1)
      as (w2 & -> & Hst2 & Hcalls2).
    exists w2. unfold run_entries. simpl.
    rewrite Hst2, Hcalls2, Hst, Hcalls.
    split; [by rewrite <- app_assoc|].
    split; [reflexivity|]. by rewrite <- app_assoc.
Qed.

End ExtractionFacts.

(** ** Pipeline orchestrator *)

Section PipelineFacts.

Context (P : Provider) (SP : Pydantic).

Lemma run_llm_extraction_ok (api_key model_choice description : string)
    (page_texts : list string) (BatchWrapper : BatchWrapperT)
    (llm : ChatModel P) (structured_llm : StructuredModel P) (w : World P) :
  ChatOpenAI P model_choice api_key = inr llm ->
  with_structured_output P llm BatchWrapper = inr structured_llm ->
  exists w' : World P,
    run_llm_extraction P SP api_key model_choice description page_texts BatchWrapper w
    = (inr (concat (run_entries P SP structured_llm BatchWrapper description 0 page_texts
                      (llm_state w))),
       w') /\
    llm_state w'
    = invoke_state P structured_llm (page_requests SP BatchWrapper description page_texts)
        (llm_state w) /\
    llm_calls w' = llm_calls w ++ page_requests SP BatchWrapper description page_texts.
Proof.
  intros Hllm Hsl. unfold run_llm_extraction, bind, lift.
  rewrite Hllm, Hsl.
  apply (extract_pages_llm_spec P SP structured_llm description BatchWrapper
           (length page_texts) page_texts 0 [] w).
Qed.

Lemma run_llm_extraction_setup_fails (api_key model_choice description : string)
    (page_texts : list string) (BatchWrapper : BatchWrapperT) (e : PyExc) (w : World P) :
  ChatOpenAI P model_choice api_key = inl e \/
  (exists llm, ChatOpenAI P model_choice api_key = inr llm /\
               with_structured_output P llm BatchWrapper = inl e) ->
  run_llm_extraction P SP api_key model_choice description page_texts BatchWrapper w
  = (inl e, w).
Proof.
  unfold run_llm_extraction, bind, lift.
  intros [->|(llm & -> & ->)]; reflexivity.
Qed.

(** An error of schema building or of segmentation ends the run in the
    handler, with the world changed by one printed line only. *)
Lemma process_extraction_fatal (fs : gmap string FileContent) (pdf_path : string)
    (fields : list (gmap string PyVal)) (api_key model_choice description : string)
    (num_pages : NumPages) (start_page : Z) (e : PyExc) (w : World P) :
  build_pydantic_model SP fields "UserDefinedModel" = inl e \/
  (exists models, build_pydantic_model SP fields "UserDefinedModel" = inr models /\
                  extract_text_from_pdf fs pdf_path num_pages start_page = inl e) ->
  process_extraction P SP fs pdf_path fields api_key model_choice description
    num_pages start_page w
  = (inr (failure_envelope e),
     mkWorld (stdout w ++ ["Extraction failed: " +:+ exc_str e]) (llm_state w) (llm_calls w)).
Proof.
  unfold process_extraction, try_except, bind, lift, print, ret.
  intros [->|(models & -> & ->)]; reflexivity.
Qed.

(** An error while the client is set up also ends the run in the handler,
    before any request. *)
Lemma process_extraction_setup_fails (fs : gmap string FileContent) (pdf_path : string)
    (fields : list (gmap string PyVal)) (api_key model_choice description : string)
    (num_pages : NumPages) (start_page : Z) (models : DynamicModelT * BatchWrapperT)
    (page_texts : list string) (e : PyExc) (w : World P) :
  build_pydantic_model SP fields "UserDefinedModel" = inr models ->
  extract_text_from_pdf fs pdf_path num_pages start_page = inr page_texts ->
  ChatOpenAI P model_choice api_key = inl e \/
  (exists llm, ChatOpenAI P model_choice api_key = inr llm /\
               with_structured_output P llm (snd models) = inl e) ->
  exists w' : World P,
    process_extraction P SP fs pdf_path fields api_key model_choice description
      num_pages start_page w
    = (inr (failure_envelope e), w') /\
    llm_state w' = llm_state w /\ llm_calls w' = llm_calls w.
Proof.
  intros Hb Hx Hsetup.
  unfold process_extraction, try_except, bind at 1, lift. rewrite Hb.
  unfold bind at 1. rewrite Hx.
  unfold bind at 1, print at 1.
  unfold bind at 1.
  rewrite (run_llm_extraction_setup_fails _ _ _ _ _ e _ Hsetup).
  unfold bind, print, ret. simpl.
  eexists. split; [reflexivity|]. split; reflexivity.
Qed.

(** A run whose schema, segmentation and client set-up succeed returns the
    success envelope over the per-page entries. *)
Lemma process_extraction_ok (fs : gmap string FileContent) (pdf_path : string)
    (fields : list (gmap string PyVal)) (api_key model_choice description : string)
    (num_pages : NumPages) (start_page : Z) (models : DynamicModelT * BatchWrapperT)
    (page_texts : list string) (llm : ChatModel P) (structured_llm : StructuredModel P)
    (w : World P) :
  build_pydantic_model SP fields "UserDefinedModel" = inr models ->
  extract_text_from_pdf fs pdf_path num_pages start_page = inr page_texts ->
  ChatOpenAI P model_choice api_key = inr llm ->
  with_structured_output P llm (snd models) = inr structured_llm ->
  exists w' : World P,
    process_extraction P SP fs pdf_path fields api_key model_choice description
      num_pages start_page w
    = (inr (success_envelope SP (snd models)
              (json_dumps
                 (PyList (concat (run_entries P SP structured_llm (snd models) description 0
                                    page_texts (llm_state w)))) 2 false)
              page_texts
              (concat (run_entries P SP structured_llm (snd models) description 0
                         page_texts (llm_state w)))),
       w') /\
    llm_state w'
    = invoke_state P structured_llm (page_requests SP (snd models) description page_texts)
        (llm_state w) /\
    llm_calls w' = llm_calls w ++ page_requests SP (snd models) description page_texts.
Proof.
  intros Hb Hx Hllm Hsl.
  unfold process_extraction, try_except, bind at 1, lift. rewrite Hb.
  unfold bind at 1. rewrite Hx.
  unfold bind at 1, print at 1.
  unfold bind at 1.
  match goal with
  | |- context [run_llm_extraction P SP _ _ _ _ _ ?w0] =>
      destruct (run_llm_extraction_ok api_key model_choice description page_texts (snd models)
                  llm structured_llm w0 Hllm Hsl) as (w1 & -> & Hst & Hcalls)
  end.
  simpl in *. unfold ret.
  exists w1. split; [reflexivity|]. split; assumption.
Qed.

End PipelineFacts.

(** ** Facts about the per-page entries *)

Section EntryFacts.

Context (P : Provider) (SP : Pydantic).

Lemma enumerate_from_length {A} (l : list A) : forall i, length (enumerate_from i l) = length l.
Proof. induction l as [|x l IH]; intros i; simpl; [reflexivity | by rewrite IH]. Qed.

Lemma enumerate_from_lookup {A} (l : list A) :
  forall (i : Z) (k : nat), enumerate_from i l !! k = (fun x => (i + Z.of_nat k, x)) <$> l !! k.
Proof.
  induction l as [|x l IH]; intros i [|k]; simpl; try reflexivity.
  - by rewrite Z.add_0_r.
  - rewrite IH. destruct (l !! k); simpl; [|reflexivity].
    do 2 f_equal. lia.
Qed.

Lemma enumerate_from_app {A} (l1 l2 : list A) :
  forall i, enumerate_from i (l1 ++ l2)
            = enumerate_from i l1 ++ enumerate_from (i + Z.of_nat (length l1)) l2.
Proof.
  induction l1 as [|x l1 IH]; intros i; simpl.
  - by rewrite Z.add_0_r.
  - rewrite IH. do 3 f_equal. lia.
Qed.

Lemma invoke_trace_length (structured_llm : StructuredModel P) (requests : list (list Message)) :
  forall st, length (invoke_trace P structured_llm requests st) = length requests.
Proof. induction requests as [|r rest IH]; intros st; simpl; [reflexivity | by rewrite IH]. Qed.

Lemma invoke_trace_app (structured_llm : StructuredModel P) (r1 r2 : list (list Message)) :
  forall st, invoke_trace P structured_llm (r1 ++ r2) st
             = invoke_trace P structured_llm r1 st
               ++ invoke_trace P structured_llm r2 (invoke_state P structured_llm r1 st).
Proof. induction r1 as [|r rest IH]; intros st; simpl; [reflexivity | by rewrite IH]. Qed.

Lemma run_entries_length (structured_llm : StructuredModel P) (BatchWrapper : BatchWrapperT)
    (description : string) (i : Z) (page_texts : list string) (st : ProviderState P) :
  length (run_entries P SP structured_llm BatchWrapper description i page_texts st)
  = length page_texts.
Proof.
  unfold run_entries, page_requests.
  rewrite length_zip_with, enumerate_from_length, invoke_trace_length, length_map. lia.
Qed.

Lemma run_entries_lookup (structured_llm : StructuredModel P) (BatchWrapper : BatchWrapperT)
    (description : string) (i : Z) (page_texts : list string) (st : ProviderState P)
    (k : nat) (page_text : string) (outcome : Res (list Item)) :
  page_texts !! k = Some page_text ->
  invoke_trace P structured_llm (page_requests SP BatchWrapper description page_texts) st !! k
  = Some outcome ->
  run_entries P SP structured_llm BatchWrapper description i page_texts st !! k
  = Some (unit_entries (i + Z.of_nat k, page_text) outcome).
Proof.
  intros Ht Ho. unfold run_entries.
  rewrite lookup_zip_with, enumerate_from_lookup, Ht, Ho. reflexivity.
Qed.

Lemma run_entries_app (structured_llm : StructuredModel P) (BatchWrapper : BatchWrapperT)
    (description : string) (i : Z) (ts1 ts2 : list string) (st : ProviderState P) :
  run_entries P SP structured_llm BatchWrapper description i (ts1 ++ ts2) st
  = run_entries P SP structured_llm BatchWrapper description i ts1 st
    ++ run_entries P SP structured_llm BatchWrapper description (i + Z.of_nat (length ts1)) ts2
         (invoke_state P structured_llm (page_requests SP BatchWrapper description ts1) st).
Proof.
  unfold run_entries, page_requests.
  rewrite map_app, invoke_trace_app, enumerate_from_app.
  apply zip_with_app.
  by rewrite enumerate_from_length, invoke_trace_length, length_map.
Qed.

Lemma invoke_trace_deterministic (structured_llm : StructuredModel P)
    (requests : list (list Message)) :
  deterministic_stub P ->
  forall st1 st2, invoke_trace P structured_llm requests st1
                  = invoke_trace P structured_llm requests st2.
Proof.
  intros Hdet. induction requests as [|r rest IH]; intros st1 st2; simpl; [reflexivity|].
  rewrite (Hdet structured_llm r st1 st2). f_equal. apply IH.
Qed.

End EntryFacts.

(** ** The pipeline's guarantees *)

(** C1 (failure isolation).  Once the schema, the page texts and the
    client are there, no error of a request leaves [run_llm_extraction]:
    the run returns the per-page entries in page order, one list of
    entries per page and one request per page; a page whose request raised
    contributes exactly one record, holding its 1-based number under
    [page], its raw text under [raw_text] and the text of the error under
    [error], between the entries of the pages before it and those of the
    pages after it; and [process_extraction] returns the success envelope
    over these entries, with [success] true. *)
Theorem failure_isolation (P : Provider) (SP : Pydantic)
    (fs : gmap string FileContent) (pdf_path : string)
    (fields : list (gmap string PyVal)) (api_key model_choice description : string)
    (num_pages : NumPages) (start_page : Z) (models : DynamicModelT * BatchWrapperT)
    (page_texts : list string) (llm : ChatModel P) (structured_llm : StructuredModel P)
    (w : World P) :
  build_pydantic_model SP fields "UserDefinedModel" = inr models ->
  extract_text_from_pdf fs pdf_path num_pages start_page = inr page_texts ->
  ChatOpenAI P model_choice api_key = inr llm ->
  with_structured_output P llm (snd models) = inr structured_llm ->
  exists (entries : list (list PyVal)) (w1 w2 : World P),
    entries = run_entries P SP structured_llm (snd models) description 0 page_texts (llm_state w) /\
    run_llm_extraction P SP api_key model_choice description page_texts (snd models) w
    = (inr (concat entries), w1) /\
    length entries = length page_texts /\
    llm_calls w1 = llm_calls w ++ page_requests SP (snd models) description page_texts /\
    (forall (k : nat) (page_text : string) (e : PyExc),
       page_texts !! k = Some page_text ->
       invoke_trace P structured_llm (page_requests SP (snd models) description page_texts)
         (llm_state w) !! k = Some (inl e) ->
       entries !! k
       = Some [PyDict [ ("page", PyInt (Z.of_nat k + 1));
                        ("raw_text", PyStr page_text);
                        ("error", PyStr (exc_str e)) ]] /\
       concat entries
       = concat (take k entries)
         ++ PyDict [ ("page", PyInt (Z.of_nat k + 1));
                     ("raw_text", PyStr page_text);
                     ("error", PyStr (exc_str e)) ]
            :: concat (drop (S k) entries)) /\
    process_extraction P SP fs pdf_path fields api_key model_choice description
      num_pages start_page w
    = (inr (success_envelope SP (snd models) (json_dumps (PyList (concat entries)) 2 false)
              page_texts (concat entries)),
       w2) /\
    result_get "success"
      (fst (process_extraction P SP fs pdf_path fields api_key model_choice description
              num_pages start_page w))
    = Some (PyBool true).
Proof.
  intros Hb Hx Hllm Hsl.
  destruct (run_llm_extraction_ok P SP api_key model_choice description page_texts (snd models)
              llm structured_llm w Hllm Hsl) as (w1 & Hrun & _ & Hcalls).
  destruct (process_extraction_ok P SP fs pdf_path fields api_key model_choice description
              num_pages start_page models page_texts llm structured_llm w Hb Hx Hllm Hsl)
    as (w2 & Hpipe & _ & _).
  eexists _, w1, w2.
  split; [reflexivity|]. split; [exact Hrun|].
  split; [apply run_entries_length|]. split; [exact Hcalls|].
  split; [|split; [exact Hpipe | by rewrite Hpipe]].
  intros k page_text e Ht Ho.
  pose proof (run_entries_lookup P SP structured_llm (snd models) description 0 page_texts
                (llm_state w) k page_text (inl e) Ht Ho) as Hk.
  simpl in Hk. unfold error_record in Hk. simpl in Hk.
  split; [exact Hk|].
  rewrite <- (take_drop_middle _ _ _ Hk) at 1.
  rewrite concat_app. simpl. reflexivity.
Qed.

Lemma failure_isolation_witness :
  exists entries : list (list PyVal),
    length entries = 3%nat /\
    entries !! 1%nat
    = Some [PyDict [ ("page", PyInt 2); ("raw_text", PyStr "page two");
                     ("error", PyStr "Request timed out.") ]] /\
    result_get "success"
      (fst (process_extraction stub_provider stub_printer sample_fs "invoice.pdf" sample_fields
              "key" "gpt-4o-mini" "Extract product details." ALL 1 stub_world))
    = Some (PyBool true).
Proof.
  destruct (failure_isolation stub_provider stub_printer sample_fs "invoice.pdf" sample_fields
              "key" "gpt-4o-mini" "Extract product details." ALL 1 sample_models
              ["page one"; "page two"; "page three"]
              ("gpt-4o-mini", "key") (snd sample_models) stub_world)
    as (entries & w1 & w2 & _ & _ & Hlen & _ & Herr & _ & Hok);
    [vm_compute; reflexivity | vm_compute; reflexivity | reflexivity | reflexivity |].
  exists entries. split; [exact Hlen|]. split; [|exact Hok].
  apply (Herr 1%nat "page two" (mkExc LibraryError "Request timed out.")).
  - reflexivity.
  - vm_compute. reflexivity.
Defined.

(** C8 (ordering).  The pages are processed one after the other in index
    order: cut the page list anywhere, and the run over all pages sends
    the requests of the first part, then, in the provider state these
    leave, the requests of the second part; its output is the output of
    the run over the first part followed by the entries of the second
    part, each part holding its pages' entries in page order. *)
Theorem extraction_order_preserved (P : Provider) (SP : Pydantic)
    (api_key model_choice description : string) (ts1 ts2 : list string)
    (BatchWrapper : BatchWrapperT) (llm : ChatModel P) (structured_llm : StructuredModel P)
    (w : World P) :
  ChatOpenAI P model_choice api_key = inr llm ->
  with_structured_output P llm BatchWrapper = inr structured_llm ->
  exists (r1 r2 : list PyVal) (w1 w2 : World P),
    run_llm_extraction P SP api_key model_choice description ts1 BatchWrapper w = (inr r1, w1) /\
    run_llm_extraction P SP api_key model_choice description (ts1 ++ ts2) BatchWrapper w
    = (inr (r1 ++ r2), w2) /\
    r1 = concat (run_entries P SP structured_llm BatchWrapper description 0 ts1 (llm_state w)) /\
    r2 = concat (run_entries P SP structured_llm BatchWrapper description
                   (Z.of_nat (length ts1)) ts2 (llm_state w1)) /\
    llm_calls w1 = llm_calls w ++ page_requests SP BatchWrapper description ts1 /\
    llm_calls w2 = llm_calls w1 ++ page_requests SP BatchWrapper description ts2 /\
    llm_state w2
    = invoke_state P structured_llm (page_requests SP BatchWrapper description ts2) (llm_state w1).
Proof.
  intros Hllm Hsl.
  destruct (run_llm_extraction_ok P SP api_key model_choice description ts1 BatchWrapper
              llm structured_llm w Hllm Hsl) as (w1 & Hrun1 & Hst1 & Hcalls1).
  destruct (run_llm_extraction_ok P SP api_key model_choice description (ts1 ++ ts2) BatchWrapper
              llm structured_llm w Hllm Hsl) as (w2 & Hrun2 & Hst2 & Hcalls2).
  eexists _, _, w1, w2.
  split; [exact Hrun1|].
  split; [|split; [reflexivity|split; [reflexivity|]]].
  - rewrite Hrun2, run_entries_app, concat_app, Hst1. reflexivity.
  - split; [exact Hcalls1|].
    unfold page_requests in *. rewrite map_app in Hcalls2, Hst2.
    split.
    + rewrite Hcalls2, Hcalls1. by rewrite <- app_assoc.
    + rewrite Hst2, Hst1. clear.
      generalize (llm_state w).
      induction (map (page_messages SP BatchWrapper description) ts1) as [|r rest IH];
        intros st; simpl; [reflexivity | apply IH].
Qed.

Lemma extraction_order_preserved_witness :
  exists r1 r2 : list PyVal,
    fst (run_llm_extraction stub_provider stub_printer "key" "gpt-4o-mini" "Extract product details."
           ["page one"] (snd sample_models) stub_world) = inr r1 /\
    fst (run_llm_extraction stub_provider stub_printer "key" "gpt-4o-mini" "Extract product details."
           (["page one"] ++ ["page two"; "page three"]) (snd sample_models) stub_world)
    = inr (r1 ++ r2).
Proof.
  destruct (extraction_order_preserved stub_provider stub_printer "key" "gpt-4o-mini" "Extract product details."
              ["page one"] ["page two"; "page three"] (snd sample_models)
              ("gpt-4o-mini", "key") (snd sample_models) stub_world)
    as (r1 & r2 & w1 & w2 & H1 & H2 & _); [reflexivity | reflexivity |].
  exists r1, r2. by rewrite H1, H2.
Defined.

(** C2 (fatal abort).  When schema building or segmentation raises, the
    call returns an envelope with [success] false, [schema] null,
    [pages_processed] 0, [total_items] 0, [error] set to the text of the
    error and [json_output] the serialisation of the object that holds
    that text under [error]; no request is sent to the model. *)
Theorem fatal_abort (P : Provider) (SP : Pydantic)
    (fs : gmap string FileContent) (pdf_path : string)
    (fields : list (gmap string PyVal)) (api_key model_choice description : string)
    (num_pages : NumPages) (start_page : Z) (e : PyExc) (w : World P) :
  build_pydantic_model SP fields "UserDefinedModel" = inl e \/
  (exists models, build_pydantic_model SP fields "UserDefinedModel" = inr models /\
                  extract_text_from_pdf fs pdf_path num_pages start_page = inl e) ->
  exists (envelope : list (string * PyVal)) (w' : World P),
    process_extraction P SP fs pdf_path fields api_key model_choice description
      num_pages start_page w = (inr (PyDict envelope), w') /\
    dict_get "success" envelope = Some (PyBool false) /\
    dict_get "schema" envelope = Some PyNone /\
    dict_get "pages_processed" envelope = Some (PyInt 0) /\
    dict_get "total_items" envelope = Some (PyInt 0) /\
    dict_get "error" envelope = Some (PyStr (exc_str e)) /\
    dict_get "json_output" envelope
    = Some (PyStr (json_dumps (PyDict [("error", PyStr (exc_str e))]) 2 true)) /\
    llm_calls w' = llm_calls w /\
    llm_state w' = llm_state w.
Proof.
  intros Hfail.
  rewrite (process_extraction_fatal P SP fs pdf_path fields api_key model_choice description
             num_pages start_page e w Hfail).
  eexists _, _. split; [reflexivity|].
  repeat split; reflexivity.
Qed.

Lemma fatal_abort_witness :
  exists (envelope : list (string * PyVal)) (w' : World stub_provider),
    process_extraction stub_provider stub_printer sample_fs "invoice.pdf" sample_fields
      "key" "gpt-4o-mini" "Extract product details." (Count 2) 4 stub_world = (inr (PyDict envelope), w') /\
    dict_get "success" envelope = Some (PyBool false) /\
    dict_get "error" envelope = Some (PyStr no_text_message) /\
    llm_calls w' = [].
Proof.
  destruct (fatal_abort stub_provider stub_printer sample_fs "invoice.pdf" sample_fields
              "key" "gpt-4o-mini" "Extract product details." (Count 2) 4 (mkExc ValueError no_text_message) stub_world)
    as (envelope & w' & Hrun & Hs & _ & _ & _ & He & _ & Hcalls & _).
  - right. exists sample_models. split; vm_compute; reflexivity.
  - exists envelope, w'. split; [exact Hrun|]. split; [exact Hs|]. split; [exact He|].
    exact Hcalls.
Defined.

Example empty_range_json_output :
  json_dumps (PyDict [("error", PyStr no_text_message)]) 2 true
  = "{" +:+ newline +:+ "  " +:+ quote +:+ "error" +:+ quote +:+ ": "
    +:+ quote +:+ "No text could be extracted from the PDF." +:+ quote +:+ newline +:+ "}".
Proof. vm_compute. reflexivity. Qed.

Section Envelope.

Context (P : Provider) (SP : Pydantic).

(** Every call ends in one of the two [return] statements. *)
Lemma process_extraction_cases (fs : gmap string FileContent) (pdf_path : string)
    (fields : list (gmap string PyVal)) (api_key model_choice description : string)
    (num_pages : NumPages) (start_page : Z) (w : World P) :
  exists w' : World P,
    (exists e : PyExc,
       process_extraction P SP fs pdf_path fields api_key model_choice description
         num_pages start_page w = (inr (failure_envelope e), w')) \/
    (exists BatchWrapper json_output page_texts results,
       process_extraction P SP fs pdf_path fields api_key model_choice description
         num_pages start_page w
       = (inr (success_envelope SP BatchWrapper json_output page_texts results), w')).
Proof.
  destruct (build_pydantic_model SP fields "UserDefinedModel") as [e|models] eqn:Hb.
  { eexists. left. exists e. apply process_extraction_fatal. by left. }
  destruct (extract_text_from_pdf fs pdf_path num_pages start_page) as [e|page_texts] eqn:Hx.
  { eexists. left. exists e. apply process_extraction_fatal. right. by exists models. }
  destruct (ChatOpenAI P model_choice api_key) as [e|llm] eqn:Hllm.
  { destruct (process_extraction_setup_fails P SP fs pdf_path fields api_key model_choice
                description num_pages start_page models page_texts e w Hb Hx)
      as (w' & Hrun & _); [by left|].
    exists w'. left. by exists e. }
  destruct (with_structured_output P llm (snd models)) as [e|structured_llm] eqn:Hsl.
  { destruct (process_extraction_setup_fails P SP fs pdf_path fields api_key model_choice
                description num_pages start_page models page_texts e w Hb Hx)
      as (w' & Hrun & _); [right; by exists llm|].
    exists w'. left. by exists e. }
  destruct (process_extraction_ok P SP fs pdf_path fields api_key model_choice description
              num_pages start_page models page_texts llm structured_llm w Hb Hx Hllm Hsl)
    as (w' & Hrun & _).
  exists w'. right. eauto.
Qed.

(** With a deterministic stub the returned envelope does not depend on
    the state the run starts in. *)
Lemma process_extraction_deterministic (fs : gmap string FileContent) (pdf_path : string)
    (fields : list (gmap string PyVal)) (api_key model_choice description : string)
    (num_pages : NumPages) (start_page : Z) :
  deterministic_stub P ->
  forall w1 w2 : World P,
    fst (process_extraction P SP fs pdf_path fields api_key model_choice description
           num_pages start_page w1)
    = fst (process_extraction P SP fs pdf_path fields api_key model_choice description
             num_pages start_page w2).
Proof.
  intros Hdet w1 w2.
  destruct (build_pydantic_model SP fields "UserDefinedModel") as [e|models] eqn:Hb.
  { rewrite !(process_extraction_fatal P SP fs pdf_path fields api_key model_choice description
                num_pages start_page e) by (by left). reflexivity. }
  destruct (extract_text_from_pdf fs pdf_path num_pages start_page) as [e|page_texts] eqn:Hx.
  { rewrite !(process_extraction_fatal P SP fs pdf_path fields api_key model_choice description
                num_pages start_page e) by (right; by exists models). reflexivity. }
  assert (Hsetup : forall e,
             ChatOpenAI P model_choice api_key = inl e \/
             (exists llm, ChatOpenAI P model_choice api_key = inr llm /\
                          with_structured_output P llm (snd models) = inl e) ->
             fst (process_extraction P SP fs pdf_path fields api_key model_choice description
                    num_pages start_page w1)
             = fst (process_extraction P SP fs pdf_path fields api_key model_choice description
                      num_pages start_page w2)).
  { intros e He.
    destruct (process_extraction_setup_fails P SP fs pdf_path fields api_key model_choice
                description num_pages start_page models page_texts e w1 Hb Hx He)
      as (w1' & -> & _).
    destruct (process_extraction_setup_fails P SP fs pdf_path fields api_key model_choice
                description num_pages start_page models page_texts e w2 Hb Hx He)
      as (w2' & -> & _).
    reflexivity. }
  destruct (ChatOpenAI P model_choice api_key) as [e|llm] eqn:Hllm.
  { apply (Hsetup e). by left. }
  destruct (with_structured_output P llm (snd models)) as [e|structured_llm] eqn:Hsl.
  { apply (Hsetup e). right. by exists llm. }
  destruct (process_extraction_ok P SP fs pdf_path fields api_key model_choice description
              num_pages start_page models page_texts llm structured_llm w1 Hb Hx Hllm Hsl)
    as (w1' & -> & _).
  destruct (process_extraction_ok P SP fs pdf_path fields api_key model_choice description
              num_pages start_page models page_texts llm structured_llm w2 Hb Hx Hllm Hsl)
    as (w2' & -> & _).
  simpl. unfold run_entries.
  by rewrite (invoke_trace_deterministic P structured_llm _ Hdet (llm_state w1) (llm_state w2)).
Qed.

End Envelope.

Lemma stub_provider_deterministic : deterministic_stub stub_provider.
Proof.
  intros structured_llm messages st1 st2. simpl. unfold stub_invoke.
  destruct messages as [|m1 [|m2 [|m3 rest]]]; try reflexivity.
  destruct (String.eqb (content m2) (user_prompt_text "page two")); reflexivity.
Qed.

(** C9 (determinism).  With a deterministic model stub, running the
    pipeline a second time on the same document, fields, configuration and
    paging parameters, in the state the first run left behind, gives an
    envelope whose [json_output] is the same string as the first run's. *)
Theorem pipeline_determinism (P : Provider) (SP : Pydantic)
    (fs : gmap string FileContent) (pdf_path : string)
    (fields : list (gmap string PyVal)) (api_key model_choice description : string)
    (num_pages : NumPages) (start_page : Z) (w : World P) :
  deterministic_stub P ->
  exists json_output : string,
    result_get "json_output"
      (fst (process_extraction P SP fs pdf_path fields api_key model_choice description
              num_pages start_page w))
    = Some (PyStr json_output) /\
    result_get "json_output"
      (fst (process_extraction P SP fs pdf_path fields api_key model_choice description
              num_pages start_page
              (snd (process_extraction P SP fs pdf_path fields api_key model_choice description
                      num_pages start_page w))))
    = Some (PyStr json_output).
Proof.
  intros Hdet.
  rewrite (process_extraction_deterministic P SP fs pdf_path fields api_key model_choice
             description num_pages start_page Hdet
             (snd (process_extraction P SP fs pdf_path fields api_key model_choice description
                     num_pages start_page w)) w).
  destruct (process_extraction_cases P SP fs pdf_path fields api_key model_choice description
              num_pages start_page w)
    as (w' & [(e & ->) | (BatchWrapper & json_output & page_texts & results & ->)]);
    eexists; split; reflexivity.
Qed.

Lemma pipeline_determinism_witness :
  exists json_output : string,
    result_get "json_output"
      (fst (process_extraction stub_provider stub_printer sample_fs "invoice.pdf" sample_fields
              "key" "gpt-4o-mini" "Extract product details." ALL 1 stub_world))
    = Some (PyStr json_output) /\
    result_get "json_output"
      (fst (process_extraction stub_provider stub_printer sample_fs "invoice.pdf" sample_fields
              "key" "gpt-4o-mini" "Extract product details." ALL 1
              (snd (process_extraction stub_provider stub_printer sample_fs "invoice.pdf"
                      sample_fields "key" "gpt-4o-mini" "Extract product details." ALL 1 stub_world))))
    = Some (PyStr json_output).
Proof.
  exact (pipeline_determinism stub_provider stub_printer sample_fs "invoice.pdf" sample_fields
           "key" "gpt-4o-mini" "Extract product details." ALL 1 stub_world stub_provider_deterministic).
Defined.

(** The stub has to be deterministic: a provider that counts its requests
    gives two different outputs. *)
Example counting_provider_differs :
  result_get "json_output"
    (fst (process_extraction counting_provider stub_printer sample_fs "scan.pdf" sample_fields
            "key" "gpt-4o-mini" "Extract product details." ALL 1 (@mkWorld counting_provider [] 0%nat [])))
  <> result_get "json_output"
       (fst (process_extraction counting_provider stub_printer sample_fs "scan.pdf" sample_fields
               "key" "gpt-4o-mini" "Extract product details." ALL 1
               (snd (process_extraction counting_provider stub_printer sample_fs "scan.pdf"
                       sample_fields "key" "gpt-4o-mini" "Extract product details." ALL 1
                       (@mkWorld counting_provider [] 0%nat []))))).
Proof. vm_compute. discriminate. Qed.

(** C10 (totality of the pipeline).  Whatever the input and the state, the
    call raises nothing: it returns a dictionary with the keys [success],
    [schema], [json_output], [pages_processed] and [total_items], and with
    the key [error] as well when [success] is false. *)
Theorem pipeline_total (P : Provider) (SP : Pydantic)
    (fs : gmap string FileContent) (pdf_path : string)
    (fields : list (gmap string PyVal)) (api_key model_choice description : string)
    (num_pages : NumPages) (start_page : Z) (w : World P) :
  exists (envelope : list (string * PyVal)) (w' : World P) (success : bool),
    process_extraction P SP fs pdf_path fields api_key model_choice description
      num_pages start_page w = (inr (PyDict envelope), w') /\
    dict_get "success" envelope = Some (PyBool success) /\
    is_Some (dict_get "schema" envelope) /\
    is_Some (dict_get "json_output" envelope) /\
    is_Some (dict_get "pages_processed" envelope) /\
    is_Some (dict_get "total_items" envelope) /\
    (success = false -> exists message, dict_get "error" envelope = Some (PyStr message)).
Proof.
  destruct (process_extraction_cases P SP fs pdf_path fields api_key model_choice description
              num_pages start_page w)
    as (w' & [(e & ->) | (BatchWrapper & json_output & page_texts & results & ->)]).
  - eexists _, w', false. split; [reflexivity|].
    repeat split; simpl; eauto.
  - eexists _, w', true. split; [reflexivity|].
    repeat split; simpl; eauto. discriminate.
Qed.

(** A descriptor without a [name] key makes schema building raise
    [KeyError]; the call still returns an envelope. *)
Example nameless_descriptor_envelope :
  fst (process_extraction stub_provider stub_printer sample_fs "invoice.pdf" nameless_fields
         "key" "gpt-4o-mini" "Extract product details." ALL 1 stub_world)
  = inr (PyDict [ ("success", PyBool false);
                  ("error", PyStr "'name'");
                  ("schema", PyNone);
                  ("json_output",
                   PyStr ("{" +:+ newline +:+ "  " +:+ quote +:+ "error" +:+ quote +:+ ": "
                          +:+ quote +:+ "'name'" +:+ quote +:+ newline +:+ "}"));
                  ("pages_processed", PyInt 0);
                  ("total_items", PyInt 0) ]).
Proof. vm_compute. reflexivity. Qed.

(** C3, where the code departs from it.  A one-page document whose page
    yields no text resolves to a page range that is not empty: the
    segmenter returns one empty unit instead of raising, and the pipeline
    goes on to send that empty page to the model. *)
Theorem blank_document_not_rejected :
  Forall (fun page => page_extract_text page = EmptyString) (pages blank_reader) /\
  extract_text_from_pdf sample_fs "scan.pdf" ALL 1 = inr [EmptyString] /\
  llm_calls (snd (process_extraction stub_provider stub_printer sample_fs "scan.pdf"
                    sample_fields "key" "gpt-4o-mini" "Extract product details." ALL 1 stub_world))
  = [page_messages stub_printer (snd sample_models) "Extract product details." EmptyString] /\
  result_get "success"
    (fst (process_extraction stub_provider stub_printer sample_fs "scan.pdf"
            sample_fields "key" "gpt-4o-mini" "Extract product details." ALL 1 stub_world))
  = Some (PyBool true).
Proof.
  split; [repeat constructor|].
  split; [vm_compute; reflexivity|].
  split; vm_compute; reflexivity.
Qed.

(** * Further properties of the code *)

(** ** Text segmenter: edges and composition *)

Lemma extract_text_from_pdf_open (fs : gmap string FileContent) (pdf_path : string)
    (reader : Reader) (num_pages : NumPages) (start_page : Z) :
  fs !! pdf_path = Some (PdfFile reader) ->
  extract_text_from_pdf fs pdf_path num_pages start_page
  = extract_text_from_reader reader num_pages start_page.
Proof. intros Hfile. unfold extract_text_from_pdf, PdfReader. by rewrite Hfile. Qed.

(** X1.  A start page of 0 or below is clamped to the first page: the call
    gives what start page 1 gives, and no page is looked up at a negative
    index. *)
Theorem start_page_clamped (fs : gmap string FileContent) (pdf_path : string)
    (reader : Reader) (num_pages : NumPages) (start_page : Z) :
  fs !! pdf_path = Some (PdfFile reader) ->
  start_page <= 1 ->
  extract_text_from_pdf fs pdf_path num_pages start_page
  = extract_text_from_pdf fs pdf_path num_pages 1 /\
  Forall (fun pg => 0 <= pg)
    (py_range (start_index start_page)
       (end_index (Z.of_nat (length (pages reader))) num_pages (start_index start_page))).
Proof.
  intros Hfile Hs. split.
  - rewrite !(extract_text_from_pdf_open _ _ _ _ _ Hfile), !extract_text_from_reader_spec.
    replace (start_index start_page) with (start_index 1); [reflexivity|].
    unfold start_index. lia.
  - unfold py_range. generalize (Z.to_nat (end_index (Z.of_nat (length (pages reader)))
                                   num_pages (start_index start_page) - start_index start_page)).
    assert (H0 : 0 <= start_index start_page) by (unfold start_index; lia).
    revert H0. generalize (start_index start_page).
    intros a Ha n. revert a Ha. induction n as [|n IH]; intros a Ha; simpl; constructor.
    + exact Ha.
    + apply IH. lia.
Qed.

Lemma start_page_clamped_witness :
  extract_text_from_pdf sample_fs "invoice.pdf" (Count 1) (-3) = inr ["page one"].
Proof.
  destruct (start_page_clamped sample_fs "invoice.pdf" sample_reader (Count 1) (-3))
    as [-> _]; [reflexivity | lia |].
  vm_compute. reflexivity.
Defined.

(** X2.  With the values the sidebar can pass (a start page of at least 1,
    and a count of at least 1 or ALL), the segmenter fails with its own
    error exactly when the start page lies beyond the last page. *)
Theorem sidebar_range_fails_only_beyond_end (fs : gmap string FileContent) (pdf_path : string)
    (reader : Reader) (num_pages : NumPages) (start_page : Z) :
  fs !! pdf_path = Some (PdfFile reader) ->
  1 <= start_page ->
  (forall c, num_pages = Count c -> 1 <= c) ->
  extract_text_from_pdf fs pdf_path num_pages start_page = raise ValueError no_text_message
  <-> Z.of_nat (length (pages reader)) < start_page.
Proof.
  intros Hfile Hs Hc.
  rewrite (extract_text_from_pdf_open _ _ _ _ _ Hfile), empty_range_raises.
  unfold start_index, end_index. destruct num_pages as [|c]; [lia|].
  specialize (Hc c eq_refl). lia.
Qed.

Lemma sidebar_range_fails_only_beyond_end_witness :
  extract_text_from_pdf sample_fs "invoice.pdf" (Count 8) 4 = raise ValueError no_text_message.
Proof.
  apply (sidebar_range_fails_only_beyond_end sample_fs "invoice.pdf" sample_reader (Count 8) 4).
  - reflexivity.
  - lia.
  - intros c [= <-]. lia.
  - simpl. lia.
Defined.

(** X3.  Reading a document in two consecutive windows gives the same
    units as reading it in one window of the added size: [c1] pages from
    page [s], then [c2] pages from page [s + c1]. *)
Theorem consecutive_windows_compose (fs : gmap string FileContent) (pdf_path : string)
    (reader : Reader) (start_page c1 c2 : Z) :
  fs !! pdf_path = Some (PdfFile reader) ->
  1 <= start_page -> 0 < c1 -> 0 < c2 ->
  start_page + c1 <= Z.of_nat (length (pages reader)) ->
  exists units1 units2 : list string,
    extract_text_from_pdf fs pdf_path (Count c1) start_page = inr units1 /\
    extract_text_from_pdf fs pdf_path (Count c2) (start_page + c1) = inr units2 /\
    extract_text_from_pdf fs pdf_path (Count (c1 + c2)) start_page = inr (units1 ++ units2).
Proof.
  intros Hfile Hs Hc1 Hc2 Hend.
  rewrite !(extract_text_from_pdf_open _ _ _ _ _ Hfile), !extract_text_from_reader_spec.
  unfold start_index, end_index, page_slice.
  set (P := Z.of_nat (length (pages reader))) in *.
  replace (Z.max 0 (start_page - 1)) with (start_page - 1) by lia.
  replace (Z.max 0 (start_page + c1 - 1)) with (start_page - 1 + c1) by lia.
  replace (Z.min (start_page - 1 + c1) P) with (start_page - 1 + c1) by lia.
  destruct (start_page - 1 <? start_page - 1 + c1) eqn:E1; [|lia].
  destruct (start_page - 1 + c1 <? Z.min (start_page - 1 + c1 + c2) P) eqn:E2; [|lia].
  destruct (start_page - 1 <? Z.min (start_page - 1 + (c1 + c2)) P) eqn:E3; [|lia].
  eexists _, _. split; [reflexivity|]. split; [reflexivity|].
  f_equal. rewrite <- map_app. f_equal.
  replace (Z.to_nat (start_page - 1 + c1 - (start_page - 1))) with (Z.to_nat c1) by lia.
  replace (Z.to_nat (start_page - 1 + c1)) with (Z.to_nat (start_page - 1) + Z.to_nat c1)%nat
    by lia.
  rewrite <- drop_drop, take_take_drop. f_equal. lia.
Qed.

Lemma consecutive_windows_compose_witness :
  exists units1 units2 : list string,
    extract_text_from_pdf sample_fs "invoice.pdf" (Count 1) 1 = inr units1 /\
    extract_text_from_pdf sample_fs "invoice.pdf" (Count 5) (1 + 1) = inr units2 /\
    extract_text_from_pdf sample_fs "invoice.pdf" (Count (1 + 5)) 1 = inr (units1 ++ units2).
Proof.
  apply (consecutive_windows_compose sample_fs "invoice.pdf" sample_reader 1 1 5);
    [reflexivity | lia | lia | lia | simpl; lia].
Defined.

(** X4.  A count of 0 or below leaves no page to read: whatever the
    document and the start page, the segmenter raises its error. *)
Theorem nonpositive_count_raises (fs : gmap string FileContent) (pdf_path : string)
    (reader : Reader) (c start_page : Z) :
  fs !! pdf_path = Some (PdfFile reader) ->
  c <= 0 ->
  extract_text_from_pdf fs pdf_path (Count c) start_page = raise ValueError no_text_message.
Proof.
  intros Hfile Hc.
  rewrite (extract_text_from_pdf_open _ _ _ _ _ Hfile). apply empty_range_raises.
  unfold start_index, end_index. lia.
Qed.

Lemma nonpositive_count_raises_witness :
  extract_text_from_pdf sample_fs "invoice.pdf" (Count 0) 2 = raise ValueError no_text_message.
Proof.
  apply (nonpositive_count_raises sample_fs "invoice.pdf" sample_reader 0 2); [reflexivity | lia].
Defined.

(** X5.  On a document that opens, the segmenter has two outcomes only:
    its own error, or a list of units that is never empty and never
    longer than the document or than the count asked for.  It never
    raises [IndexError]. *)
Theorem segmenter_outcomes (fs : gmap string FileContent) (pdf_path : string)
    (reader : Reader) (num_pages : NumPages) (start_page : Z) :
  fs !! pdf_path = Some (PdfFile reader) ->
  extract_text_from_pdf fs pdf_path num_pages start_page = raise ValueError no_text_message \/
  exists units : list string,
    extract_text_from_pdf fs pdf_path num_pages start_page = inr units /\
    units <> [] /\
    (length units <= length (pages reader))%nat /\
    (forall c, num_pages = Count c -> Z.of_nat (length units) <= c).
Proof.
  intros Hfile.
  rewrite (extract_text_from_pdf_open _ _ _ _ _ Hfile), extract_text_from_reader_spec.
  destruct (start_index start_page <? _) eqn:E; [right | by left].
  apply Z.ltb_lt in E.
  eexists. split; [reflexivity|].
  assert (Hlen : length (map page_extract_text
                   (page_slice (start_index start_page)
                      (end_index (Z.of_nat (length (pages reader))) num_pages
                         (start_index start_page)) (pages reader)))
                 = Z.to_nat (end_index (Z.of_nat (length (pages reader))) num_pages
                               (start_index start_page) - start_index start_page)).
  { rewrite length_map. apply page_slice_length.
    - unfold start_index. lia.
    - unfold end_index. destruct num_pages; lia. }
  split; [|split].
  - intros Hnil. rewrite Hnil in Hlen. simpl in Hlen. lia.
  - rewrite Hlen. unfold start_index, end_index in *. destruct num_pages; lia.
  - intros c ->. rewrite Hlen. unfold start_index, end_index in *. lia.
Qed.

Lemma segmenter_outcomes_witness :
  exists units : list string,
    extract_text_from_pdf sample_fs "invoice.pdf" (Count 2) 3 = inr units /\ units <> [].
Proof.
  destruct (segmenter_outcomes sample_fs "invoice.pdf" sample_reader (Count 2) 3)
    as [Hraise | (units & Hu & Hne & _)]; [reflexivity | |].
  - vm_compute in Hraise. discriminate.
  - exists units. split; [exact Hu | exact Hne].
Defined.

(** ** Schema builder: metadata, errors and member order *)

Lemma build_fields_app (l1 l2 : list (gmap string PyVal)) :
  forall annotations,
    build_fields (l1 ++ l2) annotations
    = res_bind (build_fields l1 annotations) (build_fields l2).
Proof.
  induction l1 as [|f l1 IH]; intros annotations; simpl; [reflexivity|].
  destruct (build_field annotations f) as [e|annotations']; simpl; [reflexivity | apply IH].
Qed.

(** The first descriptor that cannot be stored decides the error. *)
Lemma build_pydantic_model_first_failure (SP : Pydantic) (good : list (gmap string PyVal))
    (names : list string) (f : gmap string PyVal) (rest : list (gmap string PyVal)) (name : string) (e : PyExc) :
  Forall2 named good names ->
  Forall (fun f => type_hashable f = true) good ->
  (forall annotations, build_field annotations f = inl e) ->
  build_pydantic_model SP (good ++ f :: rest) name = inl e.
Proof.
  intros Hn Ht Hf. unfold build_pydantic_model.
  rewrite build_fields_app.
  change (@nil (PyVal * Annotation)) with (str_keys []).
  rewrite (build_fields_named good names Hn Ht). simpl.
  by rewrite Hf.
Qed.

(** X6.  A descriptor without a [name] key makes schema building raise
    [KeyError] for that key, wherever it stands after well-formed
    descriptors and whatever follows it. *)
Theorem missing_name_raises (SP : Pydantic) (good : list (gmap string PyVal))
    (names : list string) (f : gmap string PyVal) (rest : list (gmap string PyVal)) (name : string) :
  Forall2 named good names ->
  Forall (fun f => type_hashable f = true) good ->
  type_hashable f = true ->
  f !! "name" = None ->
  build_pydantic_model SP (good ++ f :: rest) name = inl (mkExc KeyError "'name'").
Proof.
  intros Hn Ht Hf Hname.
  apply (build_pydantic_model_first_failure SP good names); try done.
  intros annotations. unfold build_field.
  rewrite (resolve_dtype_declared f Hf). simpl. by rewrite Hname.
Qed.

Lemma missing_name_raises_witness :
  build_pydantic_model stub_printer (sample_fields ++ nameless_fields) "UserDefinedModel"
  = inl (mkExc KeyError "'name'").
Proof.
  apply (missing_name_raises stub_printer sample_fields ["product_name"; "quantity"; "code"]
           (<["type" := PyStr "int"]> (<["required" := PyBool true]> ∅)) []);
    [repeat constructor | repeat constructor | reflexivity | reflexivity].
Defined.

(** X7.  The type of a descriptor is looked up before its name is read: a
    type that is a list makes schema building raise [TypeError], also for
    a descriptor that has no name. *)
Theorem list_type_raises_first (SP : Pydantic) (good : list (gmap string PyVal))
    (names : list string) (f : gmap string PyVal) (rest : list (gmap string PyVal)) (name : string)
    (l : list PyVal) :
  Forall2 named good names ->
  Forall (fun f => type_hashable f = true) good ->
  f !! "type" = Some (PyList l) ->
  build_pydantic_model SP (good ++ f :: rest) name
  = inl (mkExc TypeError "unhashable type: 'list'").
Proof.
  intros Hn Ht Htype.
  apply (build_pydantic_model_first_failure SP good names); try done.
  intros annotations. unfold build_field, resolve_dtype. by rewrite Htype.
Qed.

Lemma list_type_raises_first_witness :
  build_pydantic_model stub_printer
    (sample_fields ++ [<["type" := PyList [PyStr "int"; PyStr "str"]]> ∅]) "UserDefinedModel"
  = inl (mkExc TypeError "unhashable type: 'list'").
Proof.
  apply (list_type_raises_first stub_printer sample_fields ["product_name"; "quantity"; "code"]
           (<["type" := PyList [PyStr "int"; PyStr "str"]]> ∅) [] "UserDefinedModel"
           [PyStr "int"; PyStr "str"]);
    [repeat constructor | repeat constructor | reflexivity].
Defined.

(** X8.  The description and the examples of a descriptor reach the type
    definition exactly when they are given and not empty: an empty
    description, an empty example list or a missing key leaves the member
    without that entry.  (For names that pydantic takes as field
    names.) *)
Theorem metadata_attached_when_given (SP : Pydantic) (fields : list (gmap string PyVal))
    (names : list string) (name : string) :
  Forall2 named fields names ->
  Forall (fun f => type_hashable f = true) fields ->
  Forall (fun n => accepts_field_name SP n = true) names ->
  NoDup names ->
  exists members : list (string * Annotation),
    build_pydantic_model SP fields name
    = inr (mkModel name members, mkBatchWrapper (mkModel name members)) /\
    Forall2 (fun f member =>
               fi_description (snd (snd member))
               = match f !! "description" with
                 | Some v => if py_truthy v then Some v else None
                 | None => None
                 end /\
               fi_examples (snd (snd member))
               = match f !! "examples" with
                 | Some v => if py_truthy v then Some v else None
                 | None => None
                 end)
            fields members.
Proof.
  intros Hn Ht Hacc Hnd. exists (assign_all fields names []).
  split; [by apply build_pydantic_model_named|].
  pose proof (Forall2_length _ _ _ Hn) as Hlen.
  rewrite assign_all_fresh by done. simpl.
  clear Ht Hacc Hnd Hlen. induction Hn as [|f n fields names _ _ IH]; simpl; constructor.
  - split; reflexivity.
  - exact IH.
Qed.

Lemma metadata_attached_when_given_witness :
  exists members : list (string * Annotation),
    build_pydantic_model stub_printer [form_descriptor sample_form] "UserDefinedModel"
    = inr (mkModel "UserDefinedModel" members,
           mkBatchWrapper (mkModel "UserDefinedModel" members)) /\
    Forall (fun member =>
              fi_examples (snd (snd member)) = Some (PyList [PyStr "Widget"; PyStr "Gadget"]))
           members.
Proof.
  destruct (metadata_attached_when_given stub_printer [form_descriptor sample_form]
              ["product_name"] "UserDefinedModel") as (members & Hb & Hmeta);
    [repeat constructor | repeat constructor | repeat constructor | compute_done |].
  exists members. split; [exact Hb|].
  inversion Hmeta as [|f member fs ms Hm Hrest]; subst.
  inversion Hrest; subst. constructor; [|constructor].
  destruct Hm as [_ ->]. reflexivity.
Defined.

Lemma assign_all_keys (fields : list (gmap string PyVal)) (names : list string) :
  length fields = length names ->
  forall m, map fst (assign_all fields names m) = first_occurrences names (map fst m).
Proof.
  revert names. induction fields as [|f fields IH]; intros [|n names] Hlen m;
    simpl in *; try discriminate; [reflexivity|].
  rewrite IH by lia. unfold first_occurrences. simpl. f_equal.
  case_bool_decide as Hin.
  - by apply members_set_keys.
  - rewrite members_set_fresh by done. by rewrite map_app.
Qed.

(** X9.  The members of the record type stand in the order in which their
    names first occur in the descriptor list; a repeated name keeps the
    place of its first descriptor.  (For names that pydantic takes as
    field names.) *)
Theorem members_in_first_occurrence_order (SP : Pydantic) (fields : list (gmap string PyVal))
    (names : list string) (name : string) :
  Forall2 named fields names ->
  Forall (fun f => type_hashable f = true) fields ->
  Forall (fun n => accepts_field_name SP n = true) names ->
  exists DynamicModel BatchWrapper,
    build_pydantic_model SP fields name = inr (DynamicModel, BatchWrapper) /\
    map fst (model_fields DynamicModel) = first_occurrences names [] /\
    (length (model_fields DynamicModel) <= length fields)%nat.
Proof.
  intros Hn Ht Hacc.
  pose proof (Forall2_length _ _ _ Hn) as Hlen.
  eexists _, _. split; [by apply (build_pydantic_model_named SP fields names)|].
  simpl. split; [by apply assign_all_keys|].
  assert (Hgrow : forall fs ns (m : list (string * Annotation)),
             (length (assign_all fs ns m) <= length m + length fs)%nat).
  { clear. induction fs as [|f fs IH]; intros [|n ns] m; simpl; try lia.
    specialize (IH ns (members_set n (field_annotation f (declared_type f)) m)).
    assert (length (members_set n (field_annotation f (declared_type f)) m) <= S (length m))%nat.
    { clear. induction m as [|[k a] m IHm]; simpl; [lia|].
      destruct (String.eqb k n); simpl; lia. }
    lia. }
  specialize (Hgrow fields names []). simpl in Hgrow. lia.
Qed.

Lemma members_in_first_occurrence_order_witness :
  exists DynamicModel BatchWrapper,
    build_pydantic_model stub_printer (sample_fields ++ duplicate_fields ++ sample_fields) "UserDefinedModel"
    = inr (DynamicModel, BatchWrapper) /\
    map fst (model_fields DynamicModel) = ["product_name"; "quantity"; "code"; "amount"].
Proof.
  destruct (members_in_first_occurrence_order stub_printer
              (sample_fields ++ duplicate_fields ++ sample_fields)
              ["product_name"; "quantity"; "code"; "amount"; "amount";
               "product_name"; "quantity"; "code"] "UserDefinedModel")
    as (DM & BW & Hb & Hk & _);
    [repeat constructor | repeat constructor | repeat constructor |].
  exists DM, BW. split; [exact Hb|]. rewrite Hk. vm_compute. reflexivity.
Defined.

(** ** Extraction invoker: what the output holds *)

Section OutputFacts.

Context (P : Provider) (SP : Pydantic).

Lemma run_entries_sizes (structured_llm : StructuredModel P) (BatchWrapper : BatchWrapperT)
    (description : string) (page_texts : list string) :
  forall (i : Z) (st : ProviderState P),
    map length (run_entries P SP structured_llm BatchWrapper description i page_texts st)
    = map outcome_size
        (invoke_trace P structured_llm (page_requests SP BatchWrapper description page_texts) st).
Proof.
  induction page_texts as [|page_text rest IH]; intros i st; [reflexivity|].
  unfold run_entries in *. simpl. f_equal.
  - destruct (fst (invoke P structured_llm _ st)); simpl; [reflexivity | apply length_map].
  - apply IH.
Qed.

Lemma concat_length_sum {A} (ls : list (list A)) :
  length (concat ls) = sum_list (map length ls).
Proof.
  induction ls as [|l ls IH]; simpl; [reflexivity|].
  by rewrite length_app, IH.
Qed.

Lemma concat_singletons {A} (ls : list (list A)) :
  Forall (fun l => length l = 1%nat) ls ->
  length (concat ls) = length ls /\
  forall k x, ls !! k = Some [x] -> concat ls !! k = Some x.
Proof.
  induction 1 as [|l ls Hl _ [IHlen IH]]; simpl.
  - split; [reflexivity|]. intros k x Hk. by rewrite lookup_nil in Hk.
  - destruct l as [|y [|z l]]; simpl in Hl; try discriminate.
    simpl. split; [by rewrite IHlen|].
    intros [|k] x Hk; simpl in *; [by injection Hk as -> | by apply IH].
Qed.

End OutputFacts.

(** X10.  When every request of a run fails, the output holds exactly one
    record per page, in page order: entry [k] carries page number [k + 1],
    the raw text of that page and the text of the error of its request. *)
Theorem all_requests_fail (P : Provider) (SP : Pydantic)
    (api_key model_choice description : string) (page_texts : list string)
    (BatchWrapper : BatchWrapperT) (llm : ChatModel P) (structured_llm : StructuredModel P)
    (w : World P) :
  ChatOpenAI P model_choice api_key = inr llm ->
  with_structured_output P llm BatchWrapper = inr structured_llm ->
  Forall (fun outcome => exists e : PyExc, outcome = inl e)
    (invoke_trace P structured_llm (page_requests SP BatchWrapper description page_texts)
       (llm_state w)) ->
  exists (results : list PyVal) (w' : World P),
    run_llm_extraction P SP api_key model_choice description page_texts BatchWrapper w
    = (inr results, w') /\
    length results = length page_texts /\
    forall (k : nat) (page_text : string),
      page_texts !! k = Some page_text ->
      exists e : PyExc,
        invoke_trace P structured_llm (page_requests SP BatchWrapper description page_texts)
          (llm_state w) !! k = Some (inl e) /\
        results !! k
        = Some (PyDict [ ("page", PyInt (Z.of_nat k + 1));
                         ("raw_text", PyStr page_text);
                         ("error", PyStr (exc_str e)) ]).
Proof.
  intros Hllm Hsl Hfail.
  destruct (run_llm_extraction_ok P SP api_key model_choice description page_texts BatchWrapper
              llm structured_llm w Hllm Hsl) as (w' & Hrun & _).
  eexists _, w'. split; [exact Hrun|].
  assert (Hone : Forall (fun l => length l = 1%nat)
                   (run_entries P SP structured_llm BatchWrapper description 0 page_texts
                      (llm_state w))).
  { apply Forall_lookup_2. intros k l Hk. unfold run_entries in Hk.
    apply lookup_zip_with_Some in Hk as (u & o & -> & _ & Ho).
    pose proof (Forall_lookup_1 _ _ _ _ Hfail Ho) as [e ->]. reflexivity. }
  destruct (concat_singletons _ Hone) as [Hlen Hlook].
  split; [by rewrite Hlen, run_entries_length|].
  intros k page_text Ht.
  destruct (lookup_lt_is_Some_2
              (invoke_trace P structured_llm
                 (page_requests SP BatchWrapper description page_texts) (llm_state w)) k)
    as [o Ho].
  { rewrite invoke_trace_length. unfold page_requests. rewrite length_map.
    by apply lookup_lt_Some in Ht. }
  pose proof (Forall_lookup_1 _ _ _ _ Hfail Ho) as [e ->].
  exists e. split; [exact Ho|].
  apply Hlook.
  rewrite (run_entries_lookup P SP structured_llm BatchWrapper description 0 page_texts
             (llm_state w) k page_text (inl e) Ht Ho).
  reflexivity.
Qed.

Lemma all_requests_fail_witness :
  exists results : list PyVal,
    fst (run_llm_extraction stub_provider stub_printer "key" "gpt-4o-mini"
           "Extract product details." ["page two"; "page two"] (snd sample_models) stub_world)
    = inr results /\
    length results = 2%nat.
Proof.
  destruct (all_requests_fail stub_provider stub_printer "key" "gpt-4o-mini"
              "Extract product details." ["page two"; "page two"] (snd sample_models)
              ("gpt-4o-mini", "key") (snd sample_models) stub_world)
    as (results & w' & Hrun & Hlen & _); [reflexivity | reflexivity | |].
  - repeat constructor; eexists; vm_compute; reflexivity.
  - exists results. rewrite Hrun. split; [reflexivity | exact Hlen].
Defined.

(** ** Pipeline orchestrator: counters and the failure after segmentation *)

(** X11.  In a run that succeeds, [total_items] is the number of entries
    of the output: for each page, the number of items of its answer, or 1
    when its request failed. *)
Theorem total_items_counts_entries (P : Provider) (SP : Pydantic)
    (fs : gmap string FileContent) (pdf_path : string)
    (fields : list (gmap string PyVal)) (api_key model_choice description : string)
    (num_pages : NumPages) (start_page : Z) (models : DynamicModelT * BatchWrapperT)
    (page_texts : list string) (llm : ChatModel P) (structured_llm : StructuredModel P)
    (w : World P) :
  build_pydantic_model SP fields "UserDefinedModel" = inr models ->
  extract_text_from_pdf fs pdf_path num_pages start_page = inr page_texts ->
  ChatOpenAI P model_choice api_key = inr llm ->
  with_structured_output P llm (snd models) = inr structured_llm ->
  result_get "total_items"
    (fst (process_extraction P SP fs pdf_path fields api_key model_choice description
            num_pages start_page w))
  = Some (PyInt (Z.of_nat
                   (sum_list
                      (map outcome_size
                         (invoke_trace P structured_llm
                            (page_requests SP (snd models) description page_texts)
                            (llm_state w)))))) /\
  result_get "pages_processed"
    (fst (process_extraction P SP fs pdf_path fields api_key model_choice description
            num_pages start_page w))
  = Some (PyInt (Z.of_nat (length page_texts))).
Proof.
  intros Hb Hx Hllm Hsl.
  destruct (process_extraction_ok P SP fs pdf_path fields api_key model_choice description
              num_pages start_page models page_texts llm structured_llm w Hb Hx Hllm Hsl)
    as (w' & -> & _).
  simpl. split; [|reflexivity].
  by rewrite concat_length_sum, run_entries_sizes.
Qed.

Lemma total_items_counts_entries_witness :
  result_get "total_items"
    (fst (process_extraction stub_provider stub_printer sample_fs "invoice.pdf" sample_fields
            "key" "gpt-4o-mini" "Extract product details." ALL 1 stub_world))
  = Some (PyInt 3).
Proof.
  destruct (total_items_counts_entries stub_provider stub_printer sample_fs "invoice.pdf"
              sample_fields "key" "gpt-4o-mini" "Extract product details." ALL 1 sample_models
              ["page one"; "page two"; "page three"] ("gpt-4o-mini", "key") (snd sample_models)
              stub_world) as [-> _];
    [vm_compute; reflexivity | vm_compute; reflexivity | reflexivity | reflexivity |].
  vm_compute. reflexivity.
Defined.

(** X12.  An error while the client is built or bound to the schema comes
    after segmentation, and is still a failed run: the envelope has
    [success] false, the text of the error, [pages_processed] 0 and
    [total_items] 0 although the pages were read, and no request is
    sent. *)
Theorem client_setup_failure (P : Provider) (SP : Pydantic)
    (fs : gmap string FileContent) (pdf_path : string)
    (fields : list (gmap string PyVal)) (api_key model_choice description : string)
    (num_pages : NumPages) (start_page : Z) (models : DynamicModelT * BatchWrapperT)
    (page_texts : list string) (e : PyExc) (w : World P) :
  build_pydantic_model SP fields "UserDefinedModel" = inr models ->
  extract_text_from_pdf fs pdf_path num_pages start_page = inr page_texts ->
  ChatOpenAI P model_choice api_key = inl e \/
  (exists llm, ChatOpenAI P model_choice api_key = inr llm /\
               with_structured_output P llm (snd models) = inl e) ->
  exists (envelope : list (string * PyVal)) (w' : World P),
    process_extraction P SP fs pdf_path fields api_key model_choice description
      num_pages start_page w = (inr (PyDict envelope), w') /\
    dict_get "success" envelope = Some (PyBool false) /\
    dict_get "error" envelope = Some (PyStr (exc_str e)) /\
    dict_get "pages_processed" envelope = Some (PyInt 0) /\
    dict_get "total_items" envelope = Some (PyInt 0) /\
    llm_calls w' = llm_calls w /\
    llm_state w' = llm_state w.
Proof.
  intros Hb Hx Hsetup.
  destruct (process_extraction_setup_fails P SP fs pdf_path fields api_key model_choice
              description num_pages start_page models page_texts e w Hb Hx Hsetup)
    as (w' & Hrun & Hst & Hcalls).
  eexists _, w'. split; [exact Hrun|].
  repeat split; try reflexivity; assumption.
Qed.

Lemma client_setup_failure_witness :
  exists envelope : list (string * PyVal),
    fst (process_extraction keyless_provider stub_printer sample_fs "invoice.pdf" sample_fields
           EmptyString "gpt-4o-mini" "Extract product details." ALL 1
           (@mkWorld keyless_provider [] 0%nat []))
    = inr (PyDict envelope) /\
    dict_get "pages_processed" envelope = Some (PyInt 0).
Proof.
  destruct (client_setup_failure keyless_provider stub_printer sample_fs "invoice.pdf"
              sample_fields EmptyString "gpt-4o-mini" "Extract product details." ALL 1
              sample_models ["page one"; "page two"; "page three"]
              (mkExc LibraryError "The api_key client option must be set")
              (@mkWorld keyless_provider [] 0%nat []))
    as (envelope & w' & Hrun & _ & _ & Hp & _);
    [vm_compute; reflexivity | vm_compute; reflexivity | left; reflexivity |].
  exists envelope. rewrite Hrun. split; [reflexivity | exact Hp].
Defined.

(** X13.  In every run, [pages_processed] is the number of requests the
    run has sent to the model. *)
Theorem pages_processed_counts_requests (P : Provider) (SP : Pydantic)
    (fs : gmap string FileContent) (pdf_path : string)
    (fields : list (gmap string PyVal)) (api_key model_choice description : string)
    (num_pages : NumPages) (start_page : Z) (w : World P) :
  exists (envelope : list (string * PyVal)) (w' : World P) (sent : list (list Message)),
    process_extraction P SP fs pdf_path fields api_key model_choice description
      num_pages start_page w = (inr (PyDict envelope), w') /\
    llm_calls w' = llm_calls w ++ sent /\
    dict_get "pages_processed" envelope = Some (PyInt (Z.of_nat (length sent))).
Proof.
  destruct (build_pydantic_model SP fields "UserDefinedModel") as [e|models] eqn:Hb.
  { rewrite (process_extraction_fatal P SP fs pdf_path fields api_key model_choice description
               num_pages start_page e) by (by left).
    eexists _, _, []. split; [reflexivity|]. simpl. by rewrite app_nil_r. }
  destruct (extract_text_from_pdf fs pdf_path num_pages start_page) as [e|page_texts] eqn:Hx.
  { rewrite (process_extraction_fatal P SP fs pdf_path fields api_key model_choice description
               num_pages start_page e) by (right; by exists models).
    eexists _, _, []. split; [reflexivity|]. simpl. by rewrite app_nil_r. }
  assert (Hsetup : forall e,
             ChatOpenAI P model_choice api_key = inl e \/
             (exists llm, ChatOpenAI P model_choice api_key = inr llm /\
                          with_structured_output P llm (snd models) = inl e) ->
             exists (envelope : list (string * PyVal)) (w' : World P) (sent : list (list Message)),
               process_extraction P SP fs pdf_path fields api_key model_choice description
                 num_pages start_page w = (inr (PyDict envelope), w') /\
               llm_calls w' = llm_calls w ++ sent /\
               dict_get "pages_processed" envelope = Some (PyInt (Z.of_nat (length sent)))).
  { intros e He.
    destruct (process_extraction_setup_fails P SP fs pdf_path fields api_key model_choice
                description num_pages start_page models page_texts e w Hb Hx He)
      as (w' & -> & _ & Hcalls).
    eexists _, w', []. split; [reflexivity|]. rewrite app_nil_r. split; [exact Hcalls | reflexivity]. }
  destruct (ChatOpenAI P model_choice api_key) as [e|llm] eqn:Hllm.
  { apply (Hsetup e). by left. }
  destruct (with_structured_output P llm (snd models)) as [e|structured_llm] eqn:Hsl.
  { apply (Hsetup e). right. by exists llm. }
  destruct (process_extraction_ok P SP fs pdf_path fields api_key model_choice description
              num_pages start_page models page_texts llm structured_llm w Hb Hx Hllm Hsl)
    as (w' & -> & _ & Hcalls).
  eexists _, w', _. split; [reflexivity|]. split; [exact Hcalls|].
  simpl. unfold page_requests. by rewrite length_map.
Qed.

(** ** The run button of the frontend *)

(** X14.  The frontend reads the key [raw_output] of the envelope, a key
    that no envelope has: whenever an API key is entered, the run ends in
    [KeyError] after the pipeline has returned, and no table is shown. *)
Theorem frontend_reads_missing_key (P : Provider) (SP : Pydantic)
    (fs : gmap string FileContent) (file_path : string) (ss : SessionState)
    (api_key model_choice description : string) (no_of_pages : NumPages)
    (page_number_to_extract_from : Z) (w : World P) :
  nonempty api_key = true ->
  fst (submit_and_run P SP fs file_path ss api_key model_choice description no_of_pages
         page_number_to_extract_from w)
  = inl (mkExc KeyError "'raw_output'") /\
  snd (submit_and_run P SP fs file_path ss api_key model_choice description no_of_pages
         page_number_to_extract_from w)
  = snd (process_extraction P SP fs file_path (ss_fields ss) api_key model_choice description
           no_of_pages page_number_to_extract_from w).
Proof.
  intros Hkey. unfold submit_and_run. rewrite Hkey. unfold bind, lift, ret.
  destruct (process_extraction_cases P SP fs file_path (ss_fields ss) api_key model_choice
              description no_of_pages page_number_to_extract_from w)
    as (w' & [(e & ->) | (BatchWrapper & json_output & page_texts & results & ->)]);
    split; reflexivity.
Qed.

Lemma frontend_reads_missing_key_witness :
  fst (submit_and_run stub_provider stub_printer sample_fs "invoice.pdf"
         (add_field sample_form initial_session) "key" "gpt-4o-mini"
         "Extract product details." ALL 1 stub_world)
  = inl (mkExc KeyError "'raw_output'").
Proof.
  apply (frontend_reads_missing_key stub_provider stub_printer sample_fs "invoice.pdf"
           (add_field sample_form initial_session) "key" "gpt-4o-mini"
           "Extract product details." ALL 1 stub_world).
  reflexivity.
Defined.

(** ** The sidebar: example lists *)

Lemma split_comma_not_nil (s : string) : split_comma s <> [].
Proof.
  induction s as [|c s IH]; simpl; [discriminate|].
  destruct (is_comma c); [discriminate|].
  destruct (split_comma s); discriminate.
Qed.

Lemma split_comma_comma_free (s : string) :
  Forall (fun piece => comma_free piece = true) (split_comma s).
Proof.
  induction s as [|c s IH]; simpl.
  - repeat constructor.
  - destruct (is_comma c) eqn:E.
    + constructor; [reflexivity | exact IH].
    + destruct (split_comma s) as [|piece pieces]; [repeat constructor; simpl; by rewrite E|].
      inversion IH; subst. constructor; [|done]. simpl. rewrite E. done.
Qed.

Lemma lstrip_comma_free (s : string) : comma_free s = true -> comma_free (lstrip s) = true.
Proof.
  induction s as [|c s IH]; simpl; [done|].
  intros H. apply andb_true_iff in H as [Hc Hs].
  destruct (is_space c); [by apply IH|]. simpl. by rewrite Hc, Hs.
Qed.

Lemma rstrip_comma_free (s : string) : comma_free s = true -> comma_free (rstrip s) = true.
Proof.
  induction s as [|c s IH]; simpl; [done|].
  intros H. apply andb_true_iff in H as [Hc Hs]. specialize (IH Hs).
  destruct (rstrip s) as [|c' r].
  - destruct (is_space c); simpl; [done | by rewrite Hc].
  - simpl in *. by rewrite Hc, IH.
Qed.

Lemma rstrip_idempotent (s : string) : rstrip (rstrip s) = rstrip s.
Proof.
  induction s as [|c s IH]; simpl; [reflexivity|].
  destruct (rstrip s) as [|c' r] eqn:E.
  - destruct (is_space c) eqn:Ec; simpl; [reflexivity | by rewrite Ec].
  - change (rstrip (String c (String c' r)))
      with (match rstrip (String c' r) with
            | EmptyString => if is_space c then EmptyString else String c EmptyString
            | String c'' r' => String c (String c'' r')
            end).
    by rewrite IH.
Qed.

Lemma lstrip_starts_clean (s : string) : starts_clean (lstrip s).
Proof.
  induction s as [|c s IH]; simpl; [done|].
  destruct (is_space c) eqn:E; [exact IH | exact E].
Qed.

Lemma rstrip_starts_clean (s : string) : starts_clean s -> starts_clean (rstrip s).
Proof.
  destruct s as [|c s]; simpl; [done|]. intros Hc.
  destruct (rstrip s); [by rewrite Hc | exact Hc].
Qed.

Lemma lstrip_clean (s : string) : starts_clean s -> lstrip s = s.
Proof. destruct s as [|c s]; simpl; [done|]. by intros ->. Qed.

Lemma strip_idempotent (s : string) : strip (strip s) = strip s.
Proof.
  unfold strip.
  rewrite (lstrip_clean (rstrip (lstrip s))).
  - apply rstrip_idempotent.
  - apply rstrip_starts_clean, lstrip_starts_clean.
Qed.

Lemma parse_examples_good (text : string) :
  Forall (fun ex => nonempty ex = true /\ comma_free ex = true /\ strip ex = ex)
    (parse_examples text).
Proof.
  unfold parse_examples. destruct (nonempty text); [|constructor].
  apply Forall_forall. intros ex Hin.
  apply list_elem_of_In, filter_In in Hin as [Hin Hne].
  apply in_map_iff in Hin as (piece & <- & Hpiece).
  split; [exact Hne|]. split; [|apply strip_idempotent].
  unfold strip. apply rstrip_comma_free, lstrip_comma_free.
  pose proof (split_comma_comma_free text) as Hall.
  rewrite Forall_forall in Hall. apply Hall. by apply list_elem_of_In.
Qed.

(** X15.  Every example the forms store is a text that is not empty, holds
    no comma and neither begins nor ends with white space. *)
Theorem parsed_examples_normal (text : string) :
  Forall (fun ex => nonempty ex = true /\ comma_free ex = true /\ strip ex = ex)
    (parse_examples text).
Proof. apply parse_examples_good. Qed.

Lemma split_comma_prefix (x t : string) :
  comma_free x = true ->
  split_comma (x +:+ String "," t) = x :: split_comma t.
Proof.
  induction x as [|c x IH]; simpl; [reflexivity|].
  intros H. apply andb_true_iff in H as [Hc Hx].
  apply negb_true_iff in Hc. rewrite Hc. by rewrite IH.
Qed.

Lemma split_comma_whole (x : string) : comma_free x = true -> split_comma x = [x].
Proof.
  induction x as [|c x IH]; simpl; [reflexivity|].
  intros H. apply andb_true_iff in H as [Hc Hx].
  apply negb_true_iff in Hc. rewrite Hc. by rewrite IH.
Qed.

Lemma split_comma_examples_text (x : string) (rest : list string) :
  Forall (fun ex => comma_free ex = true) (x :: rest) ->
  split_comma (examples_text (x :: rest)) = x :: map (String " "%char) rest.
Proof.
  revert x. induction rest as [|y rest IH]; intros x Hall.
  - inversion Hall; subst. by apply split_comma_whole.
  - inversion Hall as [|? ? Hx Hrest]; subst.
    change (examples_text (x :: y :: rest))
      with (x +:+ String "," (String " " (examples_text (y :: rest)))).
    rewrite split_comma_prefix by done.
    change (split_comma (String " " (examples_text (y :: rest))))
      with (match split_comma (examples_text (y :: rest)) with
            | [] => [String " "%char EmptyString]
            | piece :: pieces => String " " piece :: pieces
            end).
    by rewrite IH.
Qed.

Lemma nonempty_append (x t : string) : nonempty x = true -> nonempty (x +:+ t) = true.
Proof. destruct x; [discriminate | reflexivity]. Qed.

(** The text the edit form shows parses back to the stored examples. *)
Lemma parse_examples_text (examples : list string) :
  Forall (fun ex => nonempty ex = true /\ comma_free ex = true /\ strip ex = ex) examples ->
  parse_examples (examples_text examples) = examples.
Proof.
  intros Hgood. destruct examples as [|x rest]; [reflexivity|].
  unfold parse_examples.
  assert (Hne : nonempty (examples_text (x :: rest)) = true).
  { inversion Hgood as [|? ? (Hx & _) _]; subst.
    destruct rest; [exact Hx|]. by apply nonempty_append. }
  rewrite Hne, split_comma_examples_text.
  - inversion Hgood as [|? ? (Hx & _ & Hsx) Hrest]; subst. simpl.
    rewrite Hsx, Hx. f_equal.
    clear -Hrest. induction Hrest as [|y rest (Hy & _ & Hsy) _ IH]; simpl; [reflexivity|].
    change (strip (String " " y)) with (strip y).
    by rewrite Hsy, Hy, IH.
  - eapply Forall_impl; [exact Hgood|]. by intros ex (_ & H & _).
Qed.

(** X16.  Opening the edit form and saving it without touching the
    examples keeps them: the text the form shows for a stored example
    list, parsed as the save handler parses it, is that list again. *)
Theorem edit_form_keeps_examples (text : string) :
  parse_examples (examples_text (parse_examples text)) = parse_examples text.
Proof. apply parse_examples_text, parse_examples_good. Qed.

(** ** The sidebar: the field list *)

(** X17.  The delete button leaves the stored edit index as it is.  When
    the row being edited, or a row above it, is deleted, the next run
    looks up the row that stood below the edited one, and fails with
    [IndexError] when the edited row was the last. *)
Theorem delete_leaves_edit_index (ss : SessionState) (edit_idx idx : nat) :
  ss_edit_index ss = Some edit_idx ->
  (idx <= edit_idx)%nat ->
  (edit_idx < length (ss_fields ss))%nat ->
  exists ss' : SessionState,
    click_delete idx ss = inr ss' /\
    ss_edit_index ss' = Some edit_idx /\
    field_to_edit ss'
    = match ss_fields ss !! S edit_idx with
      | Some f => inr (Some f)
      | None => raise IndexError "list index out of range"
      end.
Proof.
  intros Hedit Hle Hlt. unfold click_delete.
  destruct (idx <? length (ss_fields ss))%nat eqn:E; [|apply Nat.ltb_ge in E; lia].
  eexists. split; [reflexivity|]. split; [exact Hedit|].
  unfold field_to_edit. simpl. rewrite Hedit.
  assert (Hlen : length (delete idx (ss_fields ss)) = (length (ss_fields ss) - 1)%nat).
  { apply length_delete, lookup_lt_is_Some. lia. }
  destruct (ss_fields ss !! S edit_idx) as [f|] eqn:Hnext.
  - rewrite (py_index_lookup _ _ f); [reflexivity | lia |].
    rewrite Nat2Z.id, list_lookup_delete_ge by lia. exact Hnext.
  - apply lookup_ge_None in Hnext. unfold py_index. rewrite Hlen.
    destruct (Z.of_nat edit_idx <? 0) eqn:E0; [lia|]. rewrite E0. simpl.
    destruct (Z.of_nat (length (ss_fields ss) - 1) <=? Z.of_nat edit_idx) eqn:E1;
      [reflexivity | apply Z.leb_gt in E1; lia].
Qed.

Lemma delete_leaves_edit_index_witness :
  exists ss' : SessionState,
    click_delete 0 (click_edit 0 (add_field sample_form initial_session)) = inr ss' /\
    field_to_edit ss' = raise IndexError "list index out of range".
Proof.
  destruct (delete_leaves_edit_index (click_edit 0 (add_field sample_form initial_session))
              0%nat 0%nat) as (ss' & Hdel & _ & Hlook);
    [reflexivity | lia | simpl; lia |].
  exists ss'. split; [exact Hdel | exact Hlook].
Defined.

Lemma form_descriptor_named (form : FieldForm) :
  named (form_descriptor form) (field_name form).
Proof. unfold named, form_descriptor. apply lookup_insert_eq. Qed.

Lemma form_descriptor_type (form : FieldForm) :
  form_descriptor form !! "type" = Some (PyStr (dtype_name (field_type form))).
Proof.
  unfold form_descriptor. rewrite lookup_insert_ne by done. apply lookup_insert_eq.
Qed.

(** X18.  The type picked in the select box and the state of the check box
    are what schema building reads back from the stored dictionary. *)
Theorem form_choices_read_back (form : FieldForm) :
  resolve_dtype (form_descriptor form) = inr (field_type form) /\
  field_required (form_descriptor form) = field_required_box form.
Proof.
  split.
  - unfold resolve_dtype. rewrite form_descriptor_type. simpl.
    destruct (field_type form); vm_compute; reflexivity.
  - unfold field_required, form_descriptor.
    rewrite !lookup_insert_ne by done. rewrite lookup_insert_eq. reflexivity.
Qed.

Lemma form_fields_build (SP : Pydantic) (fields : list (gmap string PyVal)) :
  Forall (fun f => exists form, f = form_descriptor form /\
                                accepts_field_name SP (field_name form) = true) fields ->
  exists models, build_pydantic_model SP fields "UserDefinedModel" = inr models.
Proof.
  intros Hforms.
  assert (exists names, Forall2 named fields names /\
                        Forall (fun n => accepts_field_name SP n = true) names)
    as (names & Hnames & Hacc).
  { induction Hforms as [|f fields (form & -> & Hok) _ (names & IH & IHacc)].
    - exists []. split; constructor.
    - exists (field_name form :: names). split.
      + constructor; [apply form_descriptor_named | exact IH].
      + constructor; [exact Hok | exact IHacc]. }
  eexists. apply (build_pydantic_model_named SP fields names); [exact Hnames | | exact Hacc].
  eapply Forall_impl; [exact Hforms|].
  intros f (form & -> & _). unfold type_hashable. by rewrite form_descriptor_type.
Qed.

(** X19.  Whatever is done on the sidebar (adding, editing, deleting and
    saving fields, in any order), the field list holds dictionaries of the
    form's shape only; schema building succeeds on it whenever pydantic
    takes each stored name as a field name. *)
Theorem sidebar_schema_builds (SP : Pydantic) (events : list SidebarEvent)
    (ss : SessionState) :
  sidebar_run events initial_session = inr ss ->
  Forall (fun f => exists form, f = form_descriptor form) (ss_fields ss) /\
  (Forall (fun f => forall n, named f n -> accepts_field_name SP n = true) (ss_fields ss) ->
   exists models, build_pydantic_model SP (ss_fields ss) "UserDefinedModel" = inr models).
Proof.
  intros Hrun.
  assert (Hinv : Forall (fun f => exists form, f = form_descriptor form) (ss_fields ss)).
  { assert (Hinit : Forall (fun f => exists form, f = form_descriptor form)
                      (ss_fields initial_session)) by constructor.
    revert Hinit Hrun. generalize initial_session.
    induction events as [|ev events IH]; intros ss0 Hinv Hrun; simpl in Hrun.
    - by injection Hrun as <-.
    - destruct (sidebar_step ev ss0) as [e|ss1] eqn:Hstep; [discriminate|].
      simpl in Hrun. apply (IH ss1); [|exact Hrun].
      destruct ev as [form|idx|idx|form]; simpl in Hstep.
      + injection Hstep as <-. unfold add_field.
        destruct (nonempty (field_name form)); [|exact Hinv].
        simpl. apply Forall_app. split; [exact Hinv|]. repeat constructor. by exists form.
      + injection Hstep as <-. exact Hinv.
      + unfold click_delete in Hstep.
        destruct (idx <? length (ss_fields ss0))%nat; [|discriminate].
        injection Hstep as <-. simpl. by apply Forall_delete.
      + unfold save_changes in Hstep.
        destruct (ss_edit_index ss0) as [edit_idx|]; [|by injection Hstep as <-].
        destruct (edit_idx <? length (ss_fields ss0))%nat; [|discriminate].
        injection Hstep as <-. simpl. apply Forall_insert; [exact Hinv | by exists form]. }
  split; [exact Hinv|].
  intros Hacc. apply form_fields_build.
  apply Forall_forall. intros f Hf.
  rewrite Forall_forall in Hinv, Hacc.
  destruct (Hinv f Hf) as [form ->].
  exists form. split; [reflexivity|].
  apply (Hacc _ Hf). apply form_descriptor_named.
Qed.

Lemma sidebar_schema_builds_witness :
  exists models,
    build_pydantic_model stub_printer
      (ss_fields (mkSession [form_descriptor sample_form] None)) "UserDefinedModel"
    = inr models.
Proof.
  destruct (sidebar_schema_builds stub_printer
              [AddField sample_form; AddField sample_form; ClickEdit 1; ClickDelete 0;
               ClickEdit 0; SaveChanges sample_form]
              (mkSession [form_descriptor sample_form] None)) as [_ Hb].
  - vm_compute. reflexivity.
  - apply Hb. constructor; [|constructor].
    intros n Hn. pose proof (form_descriptor_named sample_form) as Hname.
    unfold named in *. rewrite Hname in Hn. injection Hn as <-. reflexivity.
Defined.
